(** * California crime dashboard: the aggregation behind [update]

    A shallow embedding of [crime_cali.py].  The script loads one table of
    incident rows, and its only callback, [update], narrows the table to a
    city and derives seven figures and two headline strings from it.
    The pandas operations the callback uses ([value_counts],
    [groupby(...).size()], [sort_values], [pd.Categorical], [idxmax], [max])
    are written out as list functions; each plotly figure is represented by
    the frame that is handed to plotly express. *)

From Stdlib Require Import List String Ascii Bool Arith PeanoNat ZArith Lia.
From Stdlib Require Import Sorting.Sorted Sorting.Permutation.
From Stdlib Require Import Numbers.DecimalString Numbers.DecimalNat.
From Stdlib Require Import PrimFloat.
Import ListNotations.

Local Open Scope string_scope.
Local Open Scope list_scope.
Local Open Scope nat_scope.

(** ** Rows of the table *)

Inductive Month : Type :=
  | January | February | March | April | May_ | June
  | July | August | September | October | November | December.

(** What [date_time] holds once [parse_dates] has run. *)
Record Timestamp : Type := mkTimestamp {
  year : Z;
  month : Month;
  day : nat;
  hour : nat;
  minute : nat;
  second : nat
}.

(** One line of [california_crime_realistic_weapons.csv].  A missing cell of
    an object column is [None]; a missing timestamp (NaT) is [None]; a
    missing coordinate is the float NaN itself.  [city] is never missing:
    [sorted(df["city"].unique())] at load time cannot order a NaN among
    strings. *)
Record Row : Type := mkRow {
  city : string;
  case_closed : option string;
  race_ethnicity : option string;
  gender : option string;
  date_time : option Timestamp;
  weapon : option string;
  crime_type : option string;
  latitude : float;
  longitude : float
}.

Definition DataFrame : Type := list Row.

(** [df[name]]: one column of the frame, as a series. *)
Definition column {A : Type} (f : Row -> A) (df : DataFrame) : list A := map f df.

(** ** Labels: the values a series is grouped by *)

Class Label (K : Type) : Type := {
  label_eqb : K -> K -> bool;
  label_leb : K -> K -> bool
}.

(** Labels are compared as Python compares them: strings by code point
    (byte order on their UTF-8 encoding), integers by value. *)
#[export] Instance string_Label : Label string := {
  label_eqb := String.eqb;
  label_leb := String.leb
}.

#[export] Instance nat_Label : Label nat := {
  label_eqb := Nat.eqb;
  label_leb := Nat.leb
}.

(** What the proofs need of a label type. *)
Class LabelLaws {K : Type} (L : Label K) : Prop := {
  label_eqb_eq : forall a b : K, label_eqb a b = true <-> a = b;
  label_leb_total : forall a b : K, label_leb a b = true \/ label_leb b a = true;
  label_leb_trans : forall a b c : K,
      label_leb a b = true -> label_leb b c = true -> label_leb a c = true
}.

(** ** pandas primitives *)

Module Pandas.

(** [Series.dropna()] *)
Fixpoint dropna {A : Type} (s : list (option A)) : list A :=
  match s with
  | [] => []
  | Some a :: rest => a :: dropna rest
  | None :: rest => dropna rest
  end.

(** [Series.notna()] *)
Definition notna {A : Type} (c : option A) : bool :=
  match c with Some _ => true | None => false end.

(** [Series.isna()] *)
Definition isna {A : Type} (c : option A) : bool := negb (notna c).

(** [Series.any()] *)
Definition any (s : list bool) : bool := existsb (fun b => b) s.

(** [Series.astype(str)] on a series of strings. *)
Definition astype_str (s : list string) : list string := s.

(** [Series.unique()]: the distinct values, each at its first appearance. *)
Fixpoint unique_from {K : Type} `{Label K} (seen : list K) (s : list K) : list K :=
  match s with
  | [] => []
  | k :: rest =>
      if existsb (label_eqb k) seen then unique_from seen rest
      else k :: unique_from (k :: seen) rest
  end.

Definition unique {K : Type} `{Label K} (s : list K) : list K := unique_from [] s.

(** The hash table behind [value_counts] and [groupby]: one slot per
    distinct label, slots kept in the order the labels were first seen. *)
Fixpoint bump {K : Type} `{Label K} (k : K) (tbl : list (K * nat)) : list (K * nat) :=
  match tbl with
  | [] => [(k, 1)]
  | (k', n) :: rest =>
      if label_eqb k k' then (k', S n) :: rest else (k', n) :: bump k rest
  end.

Definition tally {K : Type} `{Label K} (s : list K) : list (K * nat) :=
  fold_left (fun tbl k => bump k tbl) s [].

Section Sorting.
Context {A : Type} (le : A -> A -> bool).

Fixpoint insert (x : A) (l : list A) : list A :=
  match l with
  | [] => [x]
  | y :: rest => if le x y then x :: y :: rest else y :: insert x rest
  end.

(** The argsort under [sort_values], as an insertion sort: rows with equal
    keys keep the order they came in.  That is the order [value_counts]
    shows among equal counts; for [DataFrame.sort_values] numpy's default
    sort fixes no order among equal keys, and nothing stated below about
    [fig_weap] or [fig_month] depends on one. *)
Fixpoint argsort (l : list A) : list A :=
  match l with
  | [] => []
  | x :: rest => insert x (argsort rest)
  end.

(** [sort_values(ascending=...)]: a descending sort reverses the rows,
    sorts them ascending and reverses the outcome, as [nargsort] does. *)
Definition sort_values (ascending : bool) (l : list A) : list A :=
  if ascending then argsort l else rev (argsort (rev l)).

End Sorting.

Definition by_count {K : Type} (a b : K * nat) : bool := Nat.leb (snd a) (snd b).

Definition by_label {K : Type} `{Label K} (a b : K * nat) : bool :=
  label_leb (fst a) (fst b).

(** [Series.value_counts()]: missing cells dropped, one entry per label,
    most frequent first. *)
Definition value_counts {K : Type} `{Label K} (s : list (option K)) : list (K * nat) :=
  sort_values by_count false (tally (dropna s)).

(** [groupby(key).size().reset_index(...)]: missing keys dropped, one row
    per key, rows in ascending key order. *)
Definition groupby_size {K : Type} `{Label K} (s : list (option K)) : list (K * nat) :=
  sort_values by_label true (tally (dropna s)).

(** What a pandas call can raise in [update]. *)
Inductive PyError : Type :=
  | ValueError.

Definition result (A : Type) : Type := (PyError + A)%type.

Definition ret {A : Type} (a : A) : result A := inr a.

Definition raise {A : Type} (e : PyError) : result A := inl e.

Definition bind {A B : Type} (m : result A) (k : A -> result B) : result B :=
  match m with
  | inl e => inl e
  | inr a => k a
  end.

(** The running best of [idxmax]: replaced only by a strictly larger value,
    so the first occurrence of the maximum wins. *)
Fixpoint argmax_from {K : Type} (best : K * nat) (s : list (K * nat)) : K * nat :=
  match s with
  | [] => best
  | e :: rest =>
      if Nat.ltb (snd best) (snd e) then argmax_from e rest else argmax_from best rest
  end.

(** [Series.idxmax()]; an empty series raises [ValueError]. *)
Definition idxmax {K : Type} (s : list (K * nat)) : result K :=
  match s with
  | [] => raise ValueError
  | e :: rest => ret (fst (argmax_from e rest))
  end.

(** [Series.max()]; an empty series gives NaN, here [None]. *)
Definition max {K : Type} (s : list (K * nat)) : option nat :=
  match s with
  | [] => None
  | e :: rest => Some (fold_left Nat.max (map snd rest) (snd e))
  end.

(** Position of a value among the categories of a [pd.Categorical]; a
    value that is no category has no code (it becomes NaN). *)
Fixpoint code_of (categories : list string) (v : string) : option nat :=
  match categories with
  | [] => None
  | c :: rest =>
      if String.eqb v c then Some 0
      else match code_of rest v with
           | Some i => Some (S i)
           | None => None
           end
  end.

(** Order of an ordered categorical column under [sort_values]: by code,
    missing values last. *)
Definition by_code (a b : option nat * nat) : bool :=
  match fst a, fst b with
  | Some i, Some j => Nat.leb i j
  | Some _, None => true
  | None, Some _ => false
  | None, None => true
  end.

(** [DataFrame.empty] *)
Definition empty {A : Type} (df : list A) : bool :=
  match df with
  | [] => true
  | _ :: _ => false
  end.

End Pandas.

(** ** The callback *)

(** [strftime("%b")] in the C locale. *)
Definition month_abbr (m : Month) : string :=
  match m with
  | January => "Jan" | February => "Feb" | March => "Mar" | April => "Apr"
  | May_ => "May" | June => "Jun" | July => "Jul" | August => "Aug"
  | September => "Sep" | October => "Oct" | November => "Nov" | December => "Dec"
  end.

Definition strftime_b (t : Timestamp) : string := month_abbr (month t).

Definition month_order : list string :=
  ["Jan"; "Feb"; "Mar"; "Apr"; "May"; "Jun";
   "Jul"; "Aug"; "Sep"; "Oct"; "Nov"; "Dec"].

Definition columns : list string :=
  ["city"; "case_closed"; "race_ethnicity"; "gender"; "date_time";
   "weapon"; "crime_type"; "latitude"; "longitude"].

(** [str(n)] *)
Definition str (n : nat) : string := NilEmpty.string_of_uint (Nat.to_uint n).

(** Thousands separators, on the digits read from the right. *)
Fixpoint group3 (digits_rev : list ascii) : list ascii :=
  match digits_rev with
  | a :: b :: c :: ((_ :: _) as more) => a :: b :: c :: ","%char :: group3 more
  | _ => digits_rev
  end.

(** [f"{n:,}"] *)
Definition format_thousands (n : nat) : string :=
  string_of_list_ascii (rev (group3 (rev (list_ascii_of_string (str n))))).

(** [f"{m}"] of what [Series.max()] gave. *)
Definition format_max (m : option nat) : string :=
  match m with
  | Some n => str n
  | None => "nan"
  end.

Inductive Html : Type :=
  | Span (children : string).

(** One marker of the scatter map: the columns [px.scatter_map] is told to
    read ([lat], [lon], [color], [hover_data]). *)
Record MapPoint : Type := mkMapPoint {
  lat : float;
  lon : float;
  color : string;
  hover_crime_type : option string;
  hover_weapon : option string;
  hover_gender : option string;
  hover_case_closed : option string
}.

Definition scatter_map (data_frame : DataFrame) : list MapPoint :=
  map (fun r => {| lat := latitude r; lon := longitude r; color := city r;
                   hover_crime_type := crime_type r; hover_weapon := weapon r;
                   hover_gender := gender r; hover_case_closed := case_closed r |})
      data_frame.

(** The nine outputs of the callback, each figure given by its data. *)
Record Outputs : Type := mkOutputs {
  fig_case : list (string * nat);
  fig_race : list (string * nat);
  fig_gender : list (string * nat);
  fig_hour : list (nat * nat);
  fig_weap : list (string * nat);
  fig_month : list (option string * nat);
  fig_map : list MapPoint;
  total : string;
  freq : Html
}.

(** [cities]: the dropdown's options. *)
Definition cities (df : DataFrame) : list string :=
  "All California" :: Pandas.argsort String.leb (Pandas.unique (column city df)).

(** [dff]: the rows the callback works on. *)
Definition dff (df : DataFrame) (selected : string) : DataFrame :=
  if String.eqb selected "All California" then df
  else filter (fun r => String.eqb (city r) selected) df.

(** [month_df] once its [month] column has been made categorical. *)
Definition categorical_months (month_df : list (string * nat)) : list (option nat * nat) :=
  map (fun row => (Pandas.code_of month_order (fst row), snd row)) month_df.

(** The labels a categorical column shows for its codes. *)
Definition category_labels (rows : list (option nat * nat)) : list (option string * nat) :=
  map (fun row => (match fst row with
                   | Some i => nth_error month_order i
                   | None => None
                   end, snd row)) rows.

Definition freq_crime (d : DataFrame) : Pandas.result Html :=
  if negb (Pandas.empty d)
     && existsb (String.eqb "crime_type") columns
     && Pandas.any (map Pandas.notna (column crime_type d))
  then
    let vc := Pandas.value_counts
                (map Some (Pandas.astype_str (Pandas.dropna (column crime_type d)))) in
    Pandas.bind (Pandas.idxmax vc) (fun top =>
    Pandas.ret (Span (top ++ " (" ++ format_max (Pandas.max vc) ++ " crimes)")%string))
  else Pandas.ret (Span "N/A").

(** [update(city)] on the table [df] that the script loaded.  [date_time]
    is the datetime column that [parse_dates] makes of a file with rows.
    For a file without rows the column stays unparsed and
    [dff.date_time.dt] raises [AttributeError] before any output is built:
    that case is left out here, and what is stated of an unknown city or of
    an empty selection below is stated for a table with rows. *)
Definition update (df : DataFrame) (selected : string) : Pandas.result Outputs :=
  let d := dff df selected in
  let case_df := Pandas.value_counts (column case_closed d) in
  let race_df := Pandas.value_counts (column race_ethnicity d) in
  let gender_df := Pandas.value_counts (column gender d) in
  let hourly_df := Pandas.groupby_size (map (option_map hour) (column date_time d)) in
  let weapon_df := Pandas.groupby_size (column weapon d) in
  let month_df := Pandas.groupby_size (map (option_map strftime_b) (column date_time d)) in
  let month_cat := categorical_months month_df in
  Pandas.bind (freq_crime d) (fun freq_span =>
  Pandas.ret {| fig_case := case_df;
                fig_race := race_df;
                fig_gender := gender_df;
                fig_hour := hourly_df;
                fig_weap := Pandas.sort_values Pandas.by_count true weapon_df;
                fig_month := category_labels (Pandas.sort_values Pandas.by_code true month_cat);
                fig_map := scatter_map d;
                total := format_thousands (List.length d);
                freq := freq_span |}).

(** ** A small table to run the callback on *)

Definition ts (mo : Month) (dy hr : nat) : Timestamp :=
  {| year := 2023; month := mo; day := dy; hour := hr; minute := 0; second := 0 |}.

Definition sample : DataFrame :=
  [ mkRow "Fresno" (Some "Yes") (Some "White") (Some "Male") (Some (ts March 4 22))
          (Some "Knife") (Some "Theft") 36.75%float (-119.75)%float;
    mkRow "Oakland" (Some "No") (Some "Black") (Some "Female") (Some (ts January 9 3))
          None (Some "Assault") 37.8125%float (-122.25)%float;
    mkRow "Fresno" (Some "No") None (Some "Male") (Some (ts December 24 22))
          (Some "Firearm") (Some "Assault") nan (-119.8125)%float;
    mkRow "Fresno" (Some "Yes") (Some "Hispanic") None (Some (ts January 15 7))
          (Some "Knife") (Some "Theft") 36.625%float (-119.5)%float;
    mkRow "Oakland" None (Some "White") (Some "Female") None
          (Some "Firearm") None 37.75%float nan;
    mkRow "Fresno" (Some "No") (Some "Asian") (Some "Male") (Some (ts August 1 0))
          (Some "Bat") (Some "Burglary") 36.5%float (-119.875)%float ].

(** Five rows, three of them in city X. *)
Definition five_rows : DataFrame :=
  [ mkRow "X" (Some "Yes") None None (Some (ts May_ 2 10)) None (Some "Theft")
          36.5%float (-119.5)%float;
    mkRow "Y" (Some "No") None None (Some (ts May_ 3 11)) None None
          37.5%float (-120.5)%float;
    mkRow "X" (Some "No") None None (Some (ts June 2 10)) None (Some "Theft")
          36.5%float (-119.5)%float;
    mkRow "X" (Some "No") None None (Some (ts April 2 23)) None (Some "Assault")
          36.5%float (-119.5)%float;
    mkRow "Y" (Some "No") None None (Some (ts May_ 9 11)) None None
          37.5%float (-120.5)%float ].

(** ** Vocabulary of the statements *)

(** How many elements of [l] satisfy [p]. *)
Definition count_where {A : Type} (p : A -> bool) (l : list A) : nat :=
  List.length (filter p l).

(** Position of the first element of [l] that satisfies [p]
    ([length l] when there is none). *)
Fixpoint first_index {A : Type} (p : A -> bool) (l : list A) : nat :=
  match l with
  | [] => 0
  | x :: rest => if p x then 0 else S (first_index p rest)
  end.

(** The cell holds the label [k]. *)
Definition holds {K : Type} `{Label K} (k : K) (c : option K) : bool :=
  match c with
  | Some x => label_eqb k x
  | None => false
  end.

Definition sum_counts {K : Type} (tbl : list (K * nat)) : nat :=
  list_sum (map snd tbl).

Definition labels {K : Type} (tbl : list (K * nat)) : list K := map fst tbl.

(** [l] can be obtained from [m] by deleting elements. *)
Inductive subseq {A : Type} : list A -> list A -> Prop :=
  | subseq_nil : subseq [] []
  | subseq_skip : forall x l m, subseq l m -> subseq l (x :: m)
  | subseq_keep : forall x l m, subseq l m -> subseq (x :: l) (x :: m).

Definition well_formed (t : Timestamp) : Prop :=
  hour t < 24 /\ minute t < 60 /\ second t < 60.

Definition dates_well_formed (df : DataFrame) : Prop :=
  forall r t, In r df -> date_time r = Some t -> well_formed t.

(** Where a stable ascending sort by [le] puts [a] relative to [b] when
    [a] came before [b] in the order [T]: [a] is not above [b], and on a tie
    the order [T] decides. *)
Definition stable_order {A : Type} (le : A -> A -> bool) (T : A -> A -> Prop)
    (a b : A) : Prop :=
  le a b = true /\ (le b a = true -> T a b).

(** Entry [a] of a frequency table stands before entry [b]: its count is
    not smaller, and between equal counts the label met first in the series
    [s] comes first. *)
Definition frequency_order {K : Type} `{Label K} (s : list (option K))
    (a b : K * nat) : Prop :=
  snd b <= snd a /\
  (snd a = snd b ->
   first_index (holds (fst a)) s < first_index (holds (fst b)) s).


(** The outputs of the callback when no row is selected. *)
Definition no_rows : Outputs :=
  {| fig_case := []; fig_race := []; fig_gender := []; fig_hour := [];
     fig_weap := []; fig_month := []; fig_map := [];
     total := "0"; freq := Span "N/A" |}.

(** The row happened in hour [h] of the day. *)
Definition at_hour (h : nat) (r : Row) : bool :=
  match date_time r with
  | Some t => Nat.eqb h (hour t)
  | None => false
  end.

(** The row happened in the month abbreviated [m]. *)
Definition in_month (m : string) (r : Row) : bool :=
  match date_time r with
  | Some t => String.eqb m (strftime_b t)
  | None => false
  end.

(** A string with its commas taken out. *)
Definition without_commas (s : string) : string :=
  string_of_list_ascii
    (filter (fun c => negb (Ascii.eqb c ","%char)) (list_ascii_of_string s)).

(** The characters of a string, last one first. *)
Definition from_the_right (s : string) : list ascii :=
  rev (list_ascii_of_string s).

(** Every entry of a table counts something, and no label has two entries. *)
Definition proper_table {K : Type} (tbl : list (K * nat)) : Prop :=
  NoDup (labels tbl) /\ Forall (fun e => 1 <= snd e) tbl.

(** ** Laws of the two label types *)

Lemma ascii_compare_refl (a : ascii) : Ascii.compare a a = Eq.
Proof. unfold Ascii.compare. apply N.compare_refl. Qed.

Lemma string_leb_trans (a b c : string) :
  String.leb a b = true -> String.leb b c = true -> String.leb a c = true.
Proof.
  unfold String.leb. revert b c.
  induction a as [|x a IH]; intros [|y b] [|z c]; simpl; try congruence.
  destruct (Ascii.compare x y) eqn:Exy; destruct (Ascii.compare y z) eqn:Eyz;
    try congruence.
  - apply Ascii.compare_eq_iff in Exy, Eyz. subst.
    rewrite ascii_compare_refl. apply IH.
  - apply Ascii.compare_eq_iff in Exy. subst. rewrite Eyz. reflexivity.
  - apply Ascii.compare_eq_iff in Eyz. subst. rewrite Exy. reflexivity.
  - unfold Ascii.compare in *. rewrite N.compare_lt_iff in Exy, Eyz.
    assert (Hxz : (N_of_ascii x < N_of_ascii z)%N) by lia.
    rewrite <- N.compare_lt_iff in Hxz. rewrite Hxz. reflexivity.
Qed.

Lemma string_LabelLaws : LabelLaws string_Label.
Proof.
  constructor; simpl.
  - apply String.eqb_eq.
  - apply String.leb_total.
  - apply string_leb_trans.
Qed.

Lemma nat_LabelLaws : LabelLaws nat_Label.
Proof.
  constructor; simpl; intros *; rewrite ?Nat.leb_le, ?Nat.eqb_eq; lia.
Qed.

#[export] Existing Instance string_LabelLaws.
#[export] Existing Instance nat_LabelLaws.

(** ** Lists: counting, first positions, strong sortedness *)

Section ListFacts.
Context {A : Type}.
Implicit Types (p : A -> bool) (l : list A).

Lemma count_where_app p l l' :
  count_where p (l ++ l') = count_where p l + count_where p l'.
Proof. unfold count_where. now rewrite filter_app, length_app. Qed.

Lemma count_where_none p l :
  (forall x, In x l -> p x = false) -> count_where p l = 0.
Proof.
  unfold count_where. induction l as [|a l IH]; simpl; intros Hn; [reflexivity|].
  rewrite (Hn a (or_introl eq_refl)). apply IH. intros x Hx. apply Hn. now right.
Qed.

Lemma count_where_pos p l x :
  In x l -> p x = true -> 0 < count_where p l.
Proof.
  unfold count_where. intros Hin Hp.
  assert (Hf : In x (filter p l)) by (apply filter_In; auto).
  destruct (filter p l); [contradiction | simpl; lia].
Qed.

Lemma count_where_le p l : count_where p l <= List.length l.
Proof. apply filter_length_le. Qed.

Lemma first_index_found p l x :
  In x l -> p x = true -> first_index p l < List.length l.
Proof.
  induction l as [|a l IH]; simpl; intros Hin Hp; [contradiction|].
  destruct (p a) eqn:Ea; [lia|].
  destruct Hin as [->|Hin]; [congruence|]. specialize (IH Hin Hp). lia.
Qed.

Lemma first_index_absent p l :
  (forall x, In x l -> p x = false) -> first_index p l = List.length l.
Proof.
  induction l as [|a l IH]; simpl; intros Hn; [reflexivity|].
  rewrite (Hn a (or_introl eq_refl)). f_equal. apply IH. intros x Hx. apply Hn. now right.
Qed.

Lemma first_index_app_found p l l' x :
  In x l -> p x = true -> first_index p (l ++ l') = first_index p l.
Proof.
  induction l as [|a l IH]; simpl; intros Hin Hp; [contradiction|].
  destruct (p a) eqn:Ea; [reflexivity|].
  destruct Hin as [->|Hin]; [congruence|]. f_equal. now apply IH.
Qed.

Lemma first_index_app_absent p l l' :
  (forall x, In x l -> p x = false) ->
  first_index p (l ++ l') = List.length l + first_index p l'.
Proof.
  induction l as [|a l IH]; simpl; intros Hn; [reflexivity|].
  rewrite (Hn a (or_introl eq_refl)). f_equal. apply IH. intros x Hx. apply Hn. now right.
Qed.

End ListFacts.

Section SortedFacts.
Context {A : Type}.
Implicit Types (l : list A) (R : A -> A -> Prop).

Lemma StronglySorted_snoc R l x :
  StronglySorted R l -> Forall (fun y => R y x) l -> StronglySorted R (l ++ [x]).
Proof.
  induction 1 as [|a l Hs IH Ha]; simpl; intros Hall.
  - constructor; constructor.
  - inversion Hall; subst. constructor; [now apply IH|].
    apply Forall_app. split; [assumption | now constructor].
Qed.

Lemma StronglySorted_rev R l :
  StronglySorted R l -> StronglySorted (fun a b => R b a) (rev l).
Proof.
  induction 1 as [|a l Hs IH Ha]; simpl; [constructor|].
  apply StronglySorted_snoc; [exact IH|]. now apply Forall_rev.
Qed.

Lemma StronglySorted_weaken R (R' : A -> A -> Prop) l :
  (forall a b, In a l -> In b l -> R a b -> R' a b) ->
  StronglySorted R l -> StronglySorted R' l.
Proof.
  intros Himp Hs. induction Hs as [|a l Hs IH Ha]; constructor.
  - apply IH. intros x y Hx Hy. apply Himp; now right.
  - rewrite Forall_forall in *. intros y Hy. apply Himp; simpl; auto.
Qed.

End SortedFacts.

Lemma StronglySorted_map {A B : Type} (f : A -> B) (R : B -> B -> Prop) (l : list A) :
  StronglySorted (fun a b => R (f a) (f b)) l -> StronglySorted R (map f l).
Proof.
  induction 1 as [|a l Hs IH Ha]; simpl; constructor; [exact IH|].
  apply Forall_map. exact Ha.
Qed.

(** ** The counting table *)

Section Tally.
Context {K : Type} {L : Label K} {LL : LabelLaws L}.
Implicit Types (k x : K) (s u : list K).

Lemma label_eqb_refl k : label_eqb k k = true.
Proof. now apply label_eqb_eq. Qed.

Lemma label_eqb_neq k x : label_eqb k x = false <-> k <> x.
Proof.
  split.
  - intros E Heq. apply label_eqb_eq in Heq. congruence.
  - intros Hne. destruct (label_eqb k x) eqn:E; [|reflexivity].
    apply label_eqb_eq in E. contradiction.
Qed.

Lemma label_eqb_sym k x : label_eqb k x = label_eqb x k.
Proof.
  destruct (label_eqb k x) eqn:E.
  - apply label_eqb_eq in E. subst. symmetry. apply label_eqb_refl.
  - apply label_eqb_neq in E. symmetry. apply label_eqb_neq. congruence.
Qed.

Lemma mem_In k s : existsb (label_eqb k) s = true <-> In k s.
Proof.
  rewrite existsb_exists. split.
  - intros (x & Hx & E). apply label_eqb_eq in E. now subst.
  - intros Hin. exists k. split; [assumption | apply label_eqb_refl].
Qed.

Lemma mem_not_In k s : existsb (label_eqb k) s = false <-> ~ In k s.
Proof.
  rewrite <- mem_In. destruct (existsb (label_eqb k) s); split; congruence.
Qed.

Lemma count_absent k s : ~ In k s -> count_where (label_eqb k) s = 0.
Proof.
  intros Hn. apply count_where_none. intros x Hx. apply label_eqb_neq. congruence.
Qed.

Lemma unique_from_snoc s : forall seen k,
  Pandas.unique_from seen (s ++ [k]) =
  Pandas.unique_from seen s ++
    (if existsb (label_eqb k) seen || existsb (label_eqb k) s then [] else [k]).
Proof.
  induction s as [|a s IH]; intros seen k; simpl.
  - rewrite orb_false_r. destruct (existsb (label_eqb k) seen); reflexivity.
  - destruct (existsb (label_eqb a) seen) eqn:Ea.
    + rewrite IH. destruct (label_eqb k a) eqn:Eka; [|reflexivity].
      apply label_eqb_eq in Eka. subst. rewrite Ea. reflexivity.
    + simpl. rewrite IH. simpl. f_equal.
      destruct (label_eqb k a), (existsb (label_eqb k) seen); simpl; reflexivity.
Qed.

Lemma unique_from_In s : forall seen x,
  In x (Pandas.unique_from seen s) <-> In x s /\ ~ In x seen.
Proof.
  induction s as [|a s IH]; intros seen x; simpl; [tauto|].
  destruct (existsb (label_eqb a) seen) eqn:Ea.
  - rewrite IH. apply mem_In in Ea. split.
    + tauto.
    + intros [[->|Hin] Hn]; [contradiction | tauto].
  - apply mem_not_In in Ea. simpl. rewrite IH. simpl. split.
    + intros [->|[Hin Hn]]; [tauto|]. tauto.
    + intros [[->|Hin] Hn]; [now left|].
      destruct (label_eqb a x) eqn:E.
      * apply label_eqb_eq in E. now left.
      * apply label_eqb_neq in E. right. tauto.
Qed.

Lemma unique_from_NoDup s : forall seen, NoDup (Pandas.unique_from seen s).
Proof.
  induction s as [|a s IH]; intros seen; simpl; [constructor|].
  destruct (existsb (label_eqb a) seen); [apply IH|].
  constructor; [|apply IH]. rewrite unique_from_In. simpl. tauto.
Qed.

Lemma unique_In s x : In x (Pandas.unique s) <-> In x s.
Proof. unfold Pandas.unique. rewrite unique_from_In. simpl. tauto. Qed.

Lemma unique_NoDup s : NoDup (Pandas.unique s).
Proof. apply unique_from_NoDup. Qed.

Lemma unique_snoc s k :
  Pandas.unique (s ++ [k]) =
  Pandas.unique s ++ (if existsb (label_eqb k) s then [] else [k]).
Proof. unfold Pandas.unique. now rewrite unique_from_snoc. Qed.

(** The labels come out in the order of their first appearance. *)
Lemma unique_first_seen s :
  StronglySorted
    (fun a b => first_index (label_eqb a) s < first_index (label_eqb b) s)
    (Pandas.unique s).
Proof.
  induction s as [|k s IH] using rev_ind; [constructor|].
  rewrite unique_snoc.
  assert (Hold : StronglySorted
            (fun a b => first_index (label_eqb a) (s ++ [k])
                        < first_index (label_eqb b) (s ++ [k]))
            (Pandas.unique s)).
  { eapply StronglySorted_weaken; [|exact IH].
    intros a b Ha Hb Hab. rewrite unique_In in Ha, Hb.
    rewrite (first_index_app_found (label_eqb a) s [k] a Ha (label_eqb_refl a)).
    rewrite (first_index_app_found (label_eqb b) s [k] b Hb (label_eqb_refl b)).
    exact Hab. }
  destruct (existsb (label_eqb k) s) eqn:Ek.
  - rewrite List.app_nil_r. exact Hold.
  - apply StronglySorted_snoc; [exact Hold|].
    apply mem_not_In in Ek. rewrite Forall_forall. intros y Hy.
    rewrite unique_In in Hy.
    rewrite (first_index_app_found (label_eqb y) s [k] y Hy (label_eqb_refl y)).
    rewrite first_index_app_absent.
    + pose proof (first_index_found (label_eqb y) s y Hy (label_eqb_refl y)). simpl. lia.
    + intros x Hx. apply label_eqb_neq. congruence.
Qed.

Lemma tally_snoc s k : Pandas.tally (s ++ [k]) = Pandas.bump k (Pandas.tally s).
Proof. unfold Pandas.tally. now rewrite fold_left_app. Qed.

Lemma bump_counts (c : K -> nat) k u :
  NoDup u ->
  Pandas.bump k (map (fun x => (x, c x)) u) =
  map (fun x => (x, c x + if label_eqb x k then 1 else 0)) u
    ++ (if existsb (label_eqb k) u then [] else [(k, 1)]).
Proof.
  induction 1 as [|a u Ha Hu IH]; simpl; [reflexivity|].
  destruct (label_eqb k a) eqn:Eka; simpl.
  - apply label_eqb_eq in Eka. subst a. rewrite label_eqb_refl, List.app_nil_r.
    f_equal; [f_equal; lia|].
    apply map_ext_in. intros x Hx.
    assert (E : label_eqb x k = false) by (apply label_eqb_neq; congruence).
    rewrite E. f_equal. lia.
  - rewrite IH. rewrite (label_eqb_sym a k), Eka. f_equal. f_equal. lia.
Qed.

(** The table in closed form: one slot per distinct label, in first-seen
    order, holding the number of occurrences of the label. *)
Lemma tally_unique s :
  Pandas.tally s = map (fun k => (k, count_where (label_eqb k) s)) (Pandas.unique s).
Proof.
  induction s as [|k s IH] using rev_ind; [reflexivity|].
  rewrite tally_snoc, IH, (bump_counts _ k _ (unique_NoDup s)), unique_snoc, map_app.
  f_equal.
  - apply map_ext. intros x. rewrite count_where_app. f_equal. f_equal.
    unfold count_where. simpl. destruct (label_eqb x k); reflexivity.
  - destruct (existsb (label_eqb k) (Pandas.unique s)) eqn:E1;
      destruct (existsb (label_eqb k) s) eqn:E2; simpl; try reflexivity.
    + rewrite mem_In, unique_In, <- mem_In in E1. congruence.
    + rewrite mem_In, <- unique_In, <- mem_In in E2. congruence.
    + apply mem_not_In in E2. rewrite count_where_app, (count_absent k s E2).
      unfold count_where. simpl. now rewrite label_eqb_refl.
Qed.

Lemma tally_labels s : labels (Pandas.tally s) = Pandas.unique s.
Proof.
  unfold labels. rewrite tally_unique, map_map. simpl. apply map_id.
Qed.

Lemma tally_In s k n :
  In (k, n) (Pandas.tally s) <-> In k s /\ n = count_where (label_eqb k) s.
Proof.
  rewrite tally_unique, in_map_iff. split.
  - intros (x & E & Hx). inversion E; subst. rewrite unique_In in Hx. auto.
  - intros (Hin & ->). exists k. split; [reflexivity | now apply unique_In].
Qed.

Lemma filter_eqb_partition u s :
  NoDup u -> (forall x, In x s -> In x u) ->
  list_sum (map (fun k => count_where (label_eqb k) s) u) = List.length s.
Proof.
  intros Hu. revert s. induction Hu as [|a u Ha Hu IH]; intros s Hs; simpl.
  - destruct s as [|x s]; [reflexivity|]. destruct (Hs x (or_introl eq_refl)).
  - specialize (IH (filter (fun x => negb (label_eqb a x)) s)).
    assert (Hrest : forall x, In x (filter (fun x => negb (label_eqb a x)) s) -> In x u).
    { intros x Hx. apply filter_In in Hx. destruct Hx as [Hx Hne].
      destruct (Hs x Hx) as [->|Hin]; [|assumption].
      rewrite label_eqb_refl in Hne. discriminate. }
    specialize (IH Hrest).
    assert (Hsame : map (fun k => count_where (label_eqb k) s) u =
                    map (fun k => count_where (label_eqb k)
                                    (filter (fun x => negb (label_eqb a x)) s)) u).
    { apply map_ext_in. intros k Hk. unfold count_where. f_equal.
      clear - Hk Ha LL. induction s as [|y s IHs]; simpl; [reflexivity|].
      destruct (label_eqb k y) eqn:Eky.
      - apply label_eqb_eq in Eky. subst y.
        assert (E : label_eqb a k = false) by (apply label_eqb_neq; congruence).
        rewrite E. simpl. rewrite label_eqb_refl. f_equal. exact IHs.
      - destruct (label_eqb a y); simpl; [exact IHs|]. rewrite Eky. exact IHs. }
    rewrite Hsame, IH. unfold count_where.
    clear. induction s as [|y s IHs]; simpl; [reflexivity|].
    destruct (label_eqb a y); simpl; lia.
Qed.

Lemma tally_sum s : sum_counts (Pandas.tally s) = List.length s.
Proof.
  unfold sum_counts. rewrite tally_unique, map_map. simpl.
  apply filter_eqb_partition; [apply unique_NoDup|].
  intros x Hx. now apply unique_In.
Qed.

Lemma tally_first_seen s :
  StronglySorted
    (fun a b => first_index (label_eqb (fst a)) s < first_index (label_eqb (fst b)) s)
    (Pandas.tally s).
Proof.
  rewrite tally_unique. apply StronglySorted_map. simpl. apply unique_first_seen.
Qed.

End Tally.

(** ** Sorting *)

Section SortFacts.
Context {A : Type} (le : A -> A -> bool).
Hypothesis le_total : forall a b, le a b = true \/ le b a = true.
Hypothesis le_trans : forall a b c, le a b = true -> le b c = true -> le a c = true.

Lemma insert_perm x l : Permutation (Pandas.insert le x l) (x :: l).
Proof.
  induction l as [|y l IH]; simpl; [apply Permutation_refl|].
  destruct (le x y); [apply Permutation_refl|].
  eapply perm_trans; [apply perm_skip, IH | apply perm_swap].
Qed.

Lemma argsort_perm l : Permutation (Pandas.argsort le l) l.
Proof.
  induction l as [|x l IH]; simpl; [constructor|].
  eapply perm_trans; [apply insert_perm | now apply perm_skip].
Qed.

Lemma sort_values_perm ascending l :
  Permutation (Pandas.sort_values le ascending l) l.
Proof.
  unfold Pandas.sort_values. destruct ascending; [apply argsort_perm|].
  eapply perm_trans; [symmetry; apply Permutation_rev|].
  eapply perm_trans; [apply argsort_perm|]. symmetry. apply Permutation_rev.
Qed.

Lemma insert_stable (T : A -> A -> Prop) x l :
  StronglySorted (stable_order le T) l -> Forall (T x) l ->
  StronglySorted (stable_order le T) (Pandas.insert le x l).
Proof.
  induction 1 as [|y l Hs IH Hy]; simpl; intros Hx.
  - constructor; constructor.
  - inversion Hx as [|? ? Txy Txl]; subst.
    rewrite Forall_forall in Hy, Txl.
    destruct (le x y) eqn:Exy.
    + constructor; [now constructor; [|rewrite Forall_forall]|].
      constructor; [split; auto|].
      rewrite Forall_forall. intros z Hz. destruct (Hy z Hz) as [Hyz _].
      split; [eapply le_trans; eassumption | auto].
    + constructor; [apply IH; now rewrite Forall_forall|].
      rewrite Forall_forall. intros z Hz.
      apply (Permutation_in _ (insert_perm x l)) in Hz.
      destruct Hz as [<-|Hz]; [|auto].
      split; [destruct (le_total x y); congruence | congruence].
Qed.

(** The sort keeps rows with equal keys in the order they had. *)
Lemma argsort_stable (T : A -> A -> Prop) l :
  StronglySorted T l -> StronglySorted (stable_order le T) (Pandas.argsort le l).
Proof.
  induction 1 as [|x l Hs IH Hx]; simpl; [constructor|].
  apply insert_stable; [exact IH|].
  eapply Permutation_Forall; [symmetry; apply argsort_perm | exact Hx].
Qed.

Lemma StronglySorted_trivial (l : list A) : StronglySorted (fun _ _ => True) l.
Proof.
  induction l; constructor; [assumption|]. rewrite Forall_forall. auto.
Qed.

Lemma argsort_sorted l :
  StronglySorted (fun a b => le a b = true) (Pandas.argsort le l).
Proof.
  eapply StronglySorted_weaken; [|apply argsort_stable, StronglySorted_trivial].
  intros a b _ _ [Hab _]. exact Hab.
Qed.

Lemma sort_values_descending_stable (T : A -> A -> Prop) l :
  StronglySorted T l ->
  StronglySorted (fun a b => le b a = true /\ (le a b = true -> T a b))
                 (Pandas.sort_values le false l).
Proof.
  intros Hs. unfold Pandas.sort_values.
  apply (StronglySorted_rev (stable_order le (fun a b => T b a))).
  apply argsort_stable. now apply StronglySorted_rev.
Qed.

End SortFacts.

Lemma StronglySorted_distinct {A B : Type} (f : A -> B) (R : A -> A -> Prop) (l : list A) :
  StronglySorted R l -> NoDup (map f l) ->
  StronglySorted (fun a b => R a b /\ f a <> f b) l.
Proof.
  induction 1 as [|a l Hs IH Ha]; simpl; intros Hnd; [constructor|].
  inversion Hnd as [|? ? Hnin Hnd']; subst.
  constructor; [now apply IH|].
  rewrite Forall_forall in *. intros y Hy. split; [now apply Ha|].
  intros E. apply Hnin. rewrite E. now apply in_map.
Qed.

(** ** Series with missing cells *)

Section Series.
Context {K : Type} {L : Label K} {LL : LabelLaws L}.
Implicit Types (k : K) (s : list (option K)).

Lemma dropna_In s k : In k (Pandas.dropna s) <-> In (Some k) s.
Proof.
  induction s as [|[x|] s IH]; simpl; [tauto| |].
  - rewrite IH. split; intros [E|H]; auto; left; congruence.
  - rewrite IH. split; [auto | intros [E|H]; [discriminate | assumption]].
Qed.

Lemma dropna_count s k :
  count_where (label_eqb k) (Pandas.dropna s) = count_where (holds k) s.
Proof.
  unfold count_where. induction s as [|[x|] s IH]; simpl; [reflexivity| |exact IH].
  destruct (label_eqb k x); simpl; now rewrite IH.
Qed.

Lemma dropna_length {B : Type} (s : list (option B)) :
  List.length (Pandas.dropna s) + count_where Pandas.isna s = List.length s.
Proof.
  unfold count_where. induction s as [|[x|] s IH]; simpl; lia.
Qed.

Lemma dropna_notna {B : Type} (s : list (option B)) :
  List.length (Pandas.dropna s) = count_where Pandas.notna s.
Proof.
  unfold count_where. induction s as [|[x|] s IH]; simpl; lia.
Qed.

Lemma dropna_first_index s a b :
  first_index (label_eqb a) (Pandas.dropna s) < first_index (label_eqb b) (Pandas.dropna s)
  <-> first_index (holds a) s < first_index (holds b) s.
Proof.
  induction s as [|[x|] s IH]; simpl; [tauto| |lia].
  destruct (label_eqb a x), (label_eqb b x); lia.
Qed.

Lemma dropna_Some (l : list K) : Pandas.dropna (map Some l) = l.
Proof. induction l as [|x l IH]; simpl; [reflexivity | now rewrite IH]. Qed.

Lemma value_counts_perm s :
  Permutation (Pandas.value_counts s) (Pandas.tally (Pandas.dropna s)).
Proof. apply sort_values_perm. Qed.

Lemma value_counts_In s k n :
  In (k, n) (Pandas.value_counts s) <-> In (Some k) s /\ n = count_where (holds k) s.
Proof.
  rewrite <- dropna_In, <- dropna_count, <- tally_In.
  split; apply Permutation_in; [|symmetry]; apply value_counts_perm.
Qed.


Lemma sum_counts_perm (t t' : list (K * nat)) :
  Permutation t t' -> sum_counts t = sum_counts t'.
Proof.
  intros Hp. unfold sum_counts.
  apply (Permutation_map snd) in Hp.
  induction Hp; simpl; lia.
Qed.

Lemma value_counts_sum s :
  sum_counts (Pandas.value_counts s) + count_where Pandas.isna s = List.length s.
Proof.
  rewrite (sum_counts_perm _ _ (value_counts_perm s)), tally_sum.
  apply dropna_length.
Qed.

(** Most frequent first; equal counts in first-seen order. *)
Lemma value_counts_order s :
  StronglySorted (frequency_order s) (Pandas.value_counts s).
Proof.
  unfold Pandas.value_counts.
  eapply StronglySorted_weaken;
    [|apply sort_values_descending_stable;
      [ intros a b; unfold Pandas.by_count; rewrite !Nat.leb_le; lia
      | intros a b c; unfold Pandas.by_count; rewrite !Nat.leb_le; lia
      | apply tally_first_seen ]].
  intros a b _ _ [Hba Htie]. unfold Pandas.by_count in *.
  rewrite Nat.leb_le in Hba. split; [exact Hba|].
  intros E. apply dropna_first_index. apply Htie. apply Nat.leb_le. lia.
Qed.

Lemma groupby_size_perm s :
  Permutation (Pandas.groupby_size s) (Pandas.tally (Pandas.dropna s)).
Proof. apply sort_values_perm. Qed.

Lemma groupby_size_In s k n :
  In (k, n) (Pandas.groupby_size s) <-> In (Some k) s /\ n = count_where (holds k) s.
Proof.
  rewrite <- dropna_In, <- dropna_count, <- tally_In.
  split; apply Permutation_in; [|symmetry]; apply groupby_size_perm.
Qed.

Lemma groupby_size_labels_NoDup s : NoDup (labels (Pandas.groupby_size s)).
Proof.
  unfold labels.
  eapply Permutation_NoDup;
    [symmetry; apply Permutation_map, groupby_size_perm|].
  fold (labels (Pandas.tally (Pandas.dropna s))).
  rewrite tally_labels. apply unique_NoDup.
Qed.

Lemma groupby_size_sum s :
  sum_counts (Pandas.groupby_size s) = count_where Pandas.notna s.
Proof.
  rewrite (sum_counts_perm _ _ (groupby_size_perm s)), tally_sum.
  apply dropna_notna.
Qed.

(** Rows in strictly ascending key order. *)
Lemma groupby_size_order s :
  StronglySorted
    (fun a b => label_leb (fst a) (fst b) = true /\ fst a <> fst b)
    (Pandas.groupby_size s).
Proof.
  apply (StronglySorted_distinct fst).
  - unfold Pandas.groupby_size, Pandas.sort_values.
    apply (argsort_sorted Pandas.by_label); unfold Pandas.by_label.
    + intros a b. apply label_leb_total.
    + intros a b c. apply label_leb_trans.
  - apply groupby_size_labels_NoDup.
Qed.

End Series.

(** ** Number formatting *)

Lemma uint_digits_no_comma (d : Decimal.uint) :
  Forall (fun c => c <> ","%char) (list_ascii_of_string (NilEmpty.string_of_uint d)).
Proof.
  induction d; simpl; constructor; try discriminate; assumption.
Qed.

Lemma group3_strip (n : nat) : forall l,
  List.length l <= n ->
  Forall (fun c => c <> ","%char) l ->
  filter (fun c => negb (Ascii.eqb c ","%char)) (group3 l) = l.
Proof.
  induction n as [|n IH]; intros l Hlen Hl.
  - destruct l; [reflexivity | simpl in Hlen; lia].
  - assert (Hkeep : forall c, c <> ","%char -> negb (Ascii.eqb c ","%char) = true).
    { intros c Hc. apply negb_true_iff, Ascii.eqb_neq. exact Hc. }
    destruct l as [|a [|b [|c [|d t]]]];
      repeat match goal with H : Forall _ (_ :: _) |- _ => inversion H; clear H; subst end;
      simpl; rewrite ?Hkeep by assumption; try reflexivity.
    do 3 f_equal.
    change (filter (fun c0 => negb (Ascii.eqb c0 ","%char)) (group3 (d :: t)) = d :: t).
    apply IH; [simpl in *; lia | now constructor].
Qed.

Lemma str_inj (n m : nat) : str n = str m -> n = m.
Proof.
  unfold str. intros E. apply (f_equal NilEmpty.uint_of_string) in E.
  rewrite !NilEmpty.usu in E. injection E as E.
  now apply DecimalNat.Unsigned.to_uint_inj.
Qed.

(** The comma-grouped rendering still determines the number. *)
Lemma format_thousands_inj (n m : nat) :
  format_thousands n = format_thousands m -> n = m.
Proof.
  unfold format_thousands. intros E.
  apply (f_equal list_ascii_of_string) in E.
  rewrite !list_ascii_of_string_of_list_ascii in E.
  apply (f_equal (@rev ascii)) in E. rewrite !rev_involutive in E.
  apply (f_equal (filter (fun c => negb (Ascii.eqb c ","%char)))) in E.
  rewrite !(group3_strip _ _ (le_n _)) in E
    by (apply Forall_rev, uint_digits_no_comma).
  apply (f_equal (@rev ascii)) in E. rewrite !rev_involutive in E.
  apply (f_equal string_of_list_ascii) in E.
  rewrite !string_of_list_ascii_of_string in E.
  now apply str_inj.
Qed.


(** ** The callback always returns *)

Lemma argmax_from_first {K : Type} (best : K * nat) (rest : list (K * nat)) :
  Forall (fun e => snd e <= snd best) rest -> Pandas.argmax_from best rest = best.
Proof.
  induction 1 as [|e rest He Hrest IH]; simpl; [reflexivity|].
  destruct (Nat.ltb_spec (snd best) (snd e)); [lia | exact IH].
Qed.

Lemma max_first {K : Type} (best : K * nat) (rest : list (K * nat)) :
  Forall (fun e => snd e <= snd best) rest ->
  fold_left Nat.max (map snd rest) (snd best) = snd best.
Proof.
  induction 1 as [|e rest He Hrest IH]; simpl; [reflexivity|].
  rewrite Nat.max_l by exact He. exact IH.
Qed.

Lemma any_notna {A : Type} (s : list (option A)) :
  Pandas.any (map Pandas.notna s) = true <-> exists a, In (Some a) s.
Proof.
  unfold Pandas.any. rewrite existsb_exists. split.
  - intros (b & Hb & ->). apply in_map_iff in Hb.
    destruct Hb as ([a|] & E & Hin); [eauto | discriminate].
  - intros (a & Ha). exists true. split; [|reflexivity].
    apply in_map_iff. exists (Some a). auto.
Qed.

Lemma any_notna_false {A : Type} (s : list (option A)) :
  Pandas.any (map Pandas.notna s) = false <-> forall c, In c s -> c = None.
Proof.
  split.
  - intros E [a|] Hin; [|reflexivity].
    assert (Pandas.any (map Pandas.notna s) = true) by (apply any_notna; eauto).
    congruence.
  - intros Hn. destruct (Pandas.any (map Pandas.notna s)) eqn:E; [|reflexivity].
    apply any_notna in E. destruct E as (a & Ha). specialize (Hn _ Ha). discriminate.
Qed.

(** The frequency table of the crime types that are present. *)
Lemma crime_table_In (ct : list (option string)) (k : string) (n : nat) :
  In (k, n) (Pandas.value_counts (map Some (Pandas.astype_str (Pandas.dropna ct))))
  <-> In (Some k) ct /\ n = count_where (holds k) ct.
Proof.
  unfold Pandas.astype_str.
  rewrite value_counts_In, <- !dropna_In, <- !dropna_count, !dropna_Some. tauto.
Qed.

Lemma crime_table_order (ct : list (option string)) :
  StronglySorted (frequency_order ct)
    (Pandas.value_counts (map Some (Pandas.astype_str (Pandas.dropna ct)))).
Proof.
  unfold Pandas.astype_str.
  eapply StronglySorted_weaken; [|apply value_counts_order].
  intros a b _ _ [Hle Htie]. split; [exact Hle|].
  intros E. specialize (Htie E).
  apply dropna_first_index. apply dropna_first_index in Htie.
  now rewrite dropna_Some in Htie.
Qed.

(** What [freq_crime] computes: either no crime type is present and the
    card shows N/A, or the card names the head of the frequency table. *)
Lemma freq_crime_cases (d : DataFrame) :
  ((forall r, In r d -> crime_type r = None) /\
   freq_crime d = inr (Span "N/A"))
  \/
  (exists k n rest,
     Pandas.value_counts
       (map Some (Pandas.astype_str (Pandas.dropna (column crime_type d))))
     = (k, n) :: rest /\
     freq_crime d = inr (Span (k ++ " (" ++ str n ++ " crimes)")%string)).
Proof.
  unfold freq_crime.
  destruct (Pandas.any (map Pandas.notna (column crime_type d))) eqn:Eany.
  - right. pose proof Eany as Hany. apply any_notna in Hany.
    destruct Hany as (k0 & Hk0).
    assert (Hd : Pandas.empty d = false).
    { destruct d; [destruct Hk0 | reflexivity]. }
    rewrite Hd. simpl negb. simpl existsb. simpl andb.
    pose proof (crime_table_order (column crime_type d)) as Hord.
    pose proof (proj2 (crime_table_In (column crime_type d) k0 _) (conj Hk0 eq_refl)) as Hin.
    destruct (Pandas.value_counts _) as [|[k n] rest]; [destruct Hin|].
    exists k, n, rest. split; [reflexivity|].
    inversion Hord as [|? ? _ Hall]; subst.
    assert (Hle : Forall (fun e => snd e <= snd (k, n)) rest).
    { eapply Forall_impl; [|exact Hall]. intros e [He _]. exact He. }
    cbv zeta. unfold Pandas.idxmax, Pandas.max, Pandas.bind, Pandas.ret.
    rewrite (argmax_from_first _ _ Hle), (max_first _ _ Hle).
    reflexivity.
  - left. rewrite andb_false_r. split; [|reflexivity].
    intros r Hr. apply (proj1 (any_notna_false _) Eany).
    unfold column. now apply in_map.
Qed.

Lemma update_frames (df : DataFrame) (selected : string) :
  exists h,
    freq_crime (dff df selected) = inr h /\
    update df selected =
    inr {| fig_case := Pandas.value_counts (column case_closed (dff df selected));
           fig_race := Pandas.value_counts (column race_ethnicity (dff df selected));
           fig_gender := Pandas.value_counts (column gender (dff df selected));
           fig_hour := Pandas.groupby_size
                         (map (option_map hour) (column date_time (dff df selected)));
           fig_weap := Pandas.sort_values Pandas.by_count true
                         (Pandas.groupby_size (column weapon (dff df selected)));
           fig_month := category_labels
                          (Pandas.sort_values Pandas.by_code true
                             (categorical_months
                                (Pandas.groupby_size
                                   (map (option_map strftime_b)
                                        (column date_time (dff df selected))))));
           fig_map := scatter_map (dff df selected);
           total := format_thousands (List.length (dff df selected));
           freq := h |}.
Proof.
  unfold update.
  destruct (freq_crime_cases (dff df selected)) as [[_ E]|(k & n & rest & _ & E)];
    rewrite E; eexists; split; reflexivity.
Qed.

(** Runs [update] and leaves the facts to prove about its outputs. *)
Ltac run_update df selected :=
  let span := fresh "span" in
  let Hu := fresh "Hu" in
  destruct (update_frames df selected) as (span & _ & Hu);
  eexists; split; [exact Hu|];
  cbn [fig_case fig_race fig_gender fig_hour fig_weap fig_month fig_map total freq].

(** ** Total and selection *)

Lemma dff_all (df : DataFrame) : dff df "All California" = df.
Proof. reflexivity. Qed.

Lemma dff_city (df : DataFrame) (selected : string) :
  selected <> "All California" ->
  dff df selected = filter (fun r => String.eqb (city r) selected) df.
Proof.
  intros Hne. unfold dff. apply String.eqb_neq in Hne. now rewrite Hne.
Qed.

(** C1 - The total shown by [update] is the number of rows of [dff], the
    selection the callback works on: the card holds that number with
    thousands separators, which determines the number.  For a city the
    selection is the rows of that city; for the entry "All California" it is
    the whole table, so the total is the length of the table. *)
Theorem total_counts_selected_rows (df : DataFrame) (selected : string) :
  exists o,
    update df selected = inr o /\
    total o = format_thousands (List.length (dff df selected)) /\
    (forall n, total o = format_thousands n -> n = List.length (dff df selected)) /\
    (selected <> "All California" ->
     dff df selected = filter (fun r => String.eqb (city r) selected) df) /\
    (selected = "All California" ->
     dff df selected = df /\ total o = format_thousands (List.length df)).
Proof.
  run_update df selected.
  split; [reflexivity|]. split; [|split].
  - intros n E. symmetry. now apply format_thousands_inj.
  - intros Hne. now apply dff_city.
  - intros ->. now rewrite dff_all.
Qed.

(** C3 - In each of the three category tables of [update] (case status,
    race, gender) the counts add up, together with the rows whose cell is
    missing, to the number of selected rows, which is the total shown. *)
Theorem category_counts_add_up (df : DataFrame) (selected : string) :
  exists o,
    update df selected = inr o /\
    total o = format_thousands (List.length (dff df selected)) /\
    sum_counts (fig_case o)
      + count_where Pandas.isna (column case_closed (dff df selected))
      = List.length (dff df selected) /\
    sum_counts (fig_race o)
      + count_where Pandas.isna (column race_ethnicity (dff df selected))
      = List.length (dff df selected) /\
    sum_counts (fig_gender o)
      + count_where Pandas.isna (column gender (dff df selected))
      = List.length (dff df selected).
Proof.
  run_update df selected.
  split; [reflexivity|].
  repeat split; rewrite value_counts_sum; unfold column; apply length_map.
Qed.



(** ** Weapons, hours and the map *)

Lemma count_where_map {A B : Type} (f : A -> B) (p : B -> bool) (l : list A) :
  count_where p (map f l) = count_where (fun a => p (f a)) l.
Proof.
  unfold count_where. induction l as [|a l IH]; simpl; [reflexivity|].
  destruct (p (f a)); simpl; now rewrite IH.
Qed.

Lemma count_where_ext {A : Type} (p q : A -> bool) (l : list A) :
  (forall a, p a = q a) -> count_where p l = count_where q l.
Proof. intros E. unfold count_where. now rewrite (filter_ext _ _ E). Qed.

Lemma dff_In (df : DataFrame) (selected : string) (r : Row) :
  In r (dff df selected) -> In r df.
Proof.
  unfold dff. destruct (String.eqb selected "All California"); [auto|].
  intros Hin. now apply filter_In in Hin.
Qed.

(** C6 - The weapon ranking of [update] is in ascending order of count:
    the count of an entry is at most the count of every later entry. *)
Theorem weapons_ascending_by_count (df : DataFrame) (selected : string) :
  exists o,
    update df selected = inr o /\
    StronglySorted (fun a b => snd a <= snd b) (fig_weap o).
Proof.
  run_update df selected.
  eapply StronglySorted_weaken; [|apply (argsort_sorted Pandas.by_count)].
  - intros a b _ _ Hab. unfold Pandas.by_count in Hab. now apply Nat.leb_le.
  - intros a b. unfold Pandas.by_count. rewrite !Nat.leb_le. lia.
  - intros a b c. unfold Pandas.by_count. rewrite !Nat.leb_le. lia.
Qed.

(** C10 - The weapon ranking of [update] has an entry exactly for the
    weapons present in the selected rows, none for a missing weapon; its
    counts add up to the number of rows with a weapon, which is at most the
    number of selected rows, and on some tables strictly less. *)
Theorem weapons_skip_missing :
  (forall df selected,
     exists o,
       update df selected = inr o /\
       (forall k n, In (k, n) (fig_weap o) <->
                    In (Some k) (column weapon (dff df selected)) /\
                    n = count_where (holds k) (column weapon (dff df selected))) /\
       sum_counts (fig_weap o)
       = count_where Pandas.notna (column weapon (dff df selected)) /\
       sum_counts (fig_weap o) <= List.length (dff df selected)) /\
  (exists df selected o,
     update df selected = inr o /\
     sum_counts (fig_weap o) < List.length (dff df selected)).
Proof.
  split.
  - intros df selected.
    run_update df selected.
    pose proof (sort_values_perm Pandas.by_count true
                  (Pandas.groupby_size (column weapon (dff df selected)))) as Hp.
    assert (Hsum : sum_counts
                     (Pandas.sort_values Pandas.by_count true
                        (Pandas.groupby_size (column weapon (dff df selected))))
                   = count_where Pandas.notna (column weapon (dff df selected))).
    { rewrite (sum_counts_perm _ _ Hp). apply groupby_size_sum. }
    split; [|split].
    + intros k n. rewrite <- groupby_size_In.
      split; apply Permutation_in; [|symmetry]; exact Hp.
    + exact Hsum.
    + rewrite Hsum.
      etransitivity; [apply count_where_le|].
      unfold column. now rewrite length_map.
  - exists sample, "Oakland". eexists. split; [reflexivity|]. vm_compute. lia.
Qed.

(** C9 - The map of [update] has one marker per selected row, in the order
    of the rows, each carrying the latitude, longitude, city, crime type,
    weapon, gender and case status of its row; no row is dropped, whatever
    its coordinates, so the markers are as many as the total shown. *)
Theorem map_keeps_every_row (df : DataFrame) (selected : string) :
  exists o,
    update df selected = inr o /\
    List.length (fig_map o) = List.length (dff df selected) /\
    total o = format_thousands (List.length (fig_map o)) /\
    (forall i r,
       nth_error (dff df selected) i = Some r ->
       nth_error (fig_map o) i
       = Some {| lat := latitude r; lon := longitude r; color := city r;
                 hover_crime_type := crime_type r; hover_weapon := weapon r;
                 hover_gender := gender r; hover_case_closed := case_closed r |}).
Proof.
  run_update df selected. unfold scatter_map.
  split; [apply length_map|]. split; [now rewrite length_map|].
  intros i r Hi. now rewrite nth_error_map, Hi.
Qed.

Lemma hour_cells (d : DataFrame) (h : nat) :
  In (Some h) (map (option_map hour) (column date_time d))
  <-> exists r t, In r d /\ date_time r = Some t /\ hour t = h.
Proof.
  unfold column. rewrite map_map, in_map_iff. split.
  - intros (r & E & Hr). destruct (date_time r) as [t|] eqn:Et; [|discriminate].
    simpl in E. injection E as E. eauto.
  - intros (r & t & Hr & Et & Eh). exists r. rewrite Et. simpl. now subst.
Qed.

Lemma hour_count (d : DataFrame) (h : nat) :
  count_where (holds h) (map (option_map hour) (column date_time d))
  = count_where (at_hour h) d.
Proof.
  unfold column. rewrite map_map, count_where_map.
  apply count_where_ext. intros r. unfold at_hour.
  destruct (date_time r); reflexivity.
Qed.

(** C7 - The hourly table of [update] has an entry exactly for the hours
    of the day at which a selected row happened, each with the number of
    those rows; entries in ascending order of hour; an hour at which
    nothing happened has no entry, so no entry has count zero; on a table
    with well-formed timestamps the hours are among 0..23. *)
Theorem hours_present_ascending (df : DataFrame) (selected : string) :
  dates_well_formed df ->
  exists o,
    update df selected = inr o /\
    StronglySorted (fun a b => fst a < fst b) (fig_hour o) /\
    (forall h n,
       In (h, n) (fig_hour o) <->
       (exists r t, In r (dff df selected) /\ date_time r = Some t /\ hour t = h) /\
       n = count_where (at_hour h) (dff df selected)) /\
    (forall h n, In (h, n) (fig_hour o) -> h < 24 /\ 0 < n).
Proof.
  intros Hwf.
  run_update df selected.
  assert (Hin : forall h n,
             In (h, n) (Pandas.groupby_size
                          (map (option_map hour) (column date_time (dff df selected))))
             <-> (exists r t, In r (dff df selected) /\ date_time r = Some t /\ hour t = h)
                 /\ n = count_where (at_hour h) (dff df selected)).
  { intros h n. now rewrite groupby_size_In, hour_cells, hour_count. }
  split; [|split].
  - eapply StronglySorted_weaken; [|apply groupby_size_order].
    intros a b _ _ [Hle Hne]. simpl in Hle. apply Nat.leb_le in Hle. lia.
  - exact Hin.
  - intros h n Hhn. apply Hin in Hhn.
    destruct Hhn as ((r & t & Hr & Et & Eh) & ->). split.
    + subst h. apply (Hwf r t); [eapply dff_In; eassumption | exact Et].
    + apply (count_where_pos _ _ r Hr). unfold at_hour. rewrite Et, Eh.
      apply Nat.eqb_refl.
Qed.

Lemma hours_present_ascending_witness :
  exists o,
    update sample "Fresno" = inr o /\
    StronglySorted (fun a b => fst a < fst b) (fig_hour o) /\
    (forall h n,
       In (h, n) (fig_hour o) <->
       (exists r t, In r (dff sample "Fresno") /\ date_time r = Some t /\ hour t = h) /\
       n = count_where (at_hour h) (dff sample "Fresno")) /\
    (forall h n, In (h, n) (fig_hour o) -> h < 24 /\ 0 < n).
Proof.
  apply (hours_present_ascending sample "Fresno").
  intros r t Hin Et. unfold sample in Hin. simpl in Hin.
  repeat (destruct Hin as [<-|Hin];
          [simpl in Et; inversion Et; subst t; unfold well_formed; simpl; lia|]).
  destruct Hin.
Defined.

(** ** Months *)

Lemma subseq_nil_l {A : Type} (l : list A) : subseq [] l.
Proof. induction l; constructor; assumption. Qed.

Lemma code_of_nth_error (cats : list string) : forall v i,
  Pandas.code_of cats v = Some i -> nth_error cats i = Some v.
Proof.
  induction cats as [|c cats IH]; simpl; intros v i E; [discriminate|].
  destruct (String.eqb_spec v c) as [->|Hne].
  - injection E as <-. reflexivity.
  - destruct (Pandas.code_of cats v) as [j|] eqn:Ej; [|discriminate].
    injection E as <-. simpl. now apply IH.
Qed.

Lemma code_of_In (cats : list string) (v : string) :
  In v cats -> exists i, Pandas.code_of cats v = Some i.
Proof.
  induction cats as [|c cats IH]; simpl; intros Hin; [contradiction|].
  destruct (String.eqb_spec v c) as [->|Hne]; [eauto|].
  destruct Hin as [->|Hin]; [contradiction|].
  destruct (IH Hin) as (i & ->). eauto.
Qed.

Lemma code_of_inj (cats : list string) (a b : string) (i : nat) :
  Pandas.code_of cats a = Some i -> Pandas.code_of cats b = Some i -> a = b.
Proof.
  intros Ha Hb. apply code_of_nth_error in Ha, Hb. congruence.
Qed.

(** Labels listed by strictly increasing category code form a
    subsequence of the categories. *)
Lemma subseq_by_code (cats : list string) : forall ms,
  Forall (fun a => In a cats) ms ->
  StronglySorted
    (fun a b => forall i j,
         Pandas.code_of cats a = Some i -> Pandas.code_of cats b = Some j -> i < j) ms ->
  subseq ms cats.
Proof.
  induction cats as [|x cats IH]; intros ms Hin Hs.
  - destruct ms as [|m ms]; [constructor|]. inversion Hin; subst. contradiction.
  - assert (Hdown : forall l,
              Forall (fun a => In a (x :: cats)) l ->
              Forall (fun a => a <> x) l ->
              StronglySorted
                (fun a b => forall i j,
                     Pandas.code_of (x :: cats) a = Some i ->
                     Pandas.code_of (x :: cats) b = Some j -> i < j) l ->
              subseq l cats).
    { intros l Hl Hx Hsl. apply IH.
      - rewrite Forall_forall in *. intros a Ha.
        destruct (Hl a Ha) as [<-|Hc]; [|exact Hc]. now destruct (Hx x Ha).
      - eapply StronglySorted_weaken; [|exact Hsl].
        rewrite Forall_forall in Hx.
        intros a b Ha Hb Hab i j Ei Ej.
        specialize (Hab (S i) (S j)). simpl in Hab.
        destruct (String.eqb_spec a x) as [->|_]; [now destruct (Hx x Ha)|].
        destruct (String.eqb_spec b x) as [->|_]; [now destruct (Hx x Hb)|].
        rewrite Ei, Ej in Hab. specialize (Hab eq_refl eq_refl). lia. }
    destruct ms as [|m ms]; [apply subseq_nil_l|].
    inversion Hs as [|? ? Hs' Hm]; subst.
    inversion Hin as [|? ? Hm_in Hms_in]; subst.
    assert (Hafter : Forall (fun a => a <> x) ms).
    { rewrite Forall_forall in *. intros b Hb ->.
      destruct (code_of_In (x :: cats) m Hm_in) as (i & Ei).
      specialize (Hm x Hb i 0 Ei). simpl in Hm. rewrite String.eqb_refl in Hm.
      specialize (Hm eq_refl). lia. }
    destruct (String.eqb_spec m x) as [->|Hne].
    + apply subseq_keep. now apply Hdown.
    + apply subseq_skip. apply Hdown; [assumption | now constructor | assumption].
Qed.

Lemma insert_map {A B : Type} (g : A -> B) (le : B -> B -> bool) (x : A) (l : list A) :
  Pandas.insert le (g x) (map g l)
  = map g (Pandas.insert (fun a b => le (g a) (g b)) x l).
Proof.
  induction l as [|y l IH]; simpl; [reflexivity|].
  destruct (le (g x) (g y)); simpl; [reflexivity | now rewrite IH].
Qed.

(** Sorting the images is sorting by the images. *)
Lemma argsort_map {A B : Type} (g : A -> B) (le : B -> B -> bool) (l : list A) :
  Pandas.argsort le (map g l) = map g (Pandas.argsort (fun a b => le (g a) (g b)) l).
Proof.
  induction l as [|x l IH]; simpl; [reflexivity|].
  now rewrite IH, insert_map.
Qed.

Lemma month_abbr_In (m : Month) : In (month_abbr m) month_order.
Proof. destruct m; simpl; tauto. Qed.

Lemma month_cells (d : DataFrame) (m : string) :
  In (Some m) (map (option_map strftime_b) (column date_time d))
  <-> exists r t, In r d /\ date_time r = Some t /\ strftime_b t = m.
Proof.
  unfold column. rewrite map_map, in_map_iff. split.
  - intros (r & E & Hr). destruct (date_time r) as [t|] eqn:Et; [|discriminate].
    simpl in E. injection E as E. eauto.
  - intros (r & t & Hr & Et & Eh). exists r. rewrite Et. simpl. now subst.
Qed.

Lemma by_code_total (a b : option nat * nat) :
  Pandas.by_code a b = true \/ Pandas.by_code b a = true.
Proof.
  unfold Pandas.by_code. destruct (fst a), (fst b); auto.
  rewrite !Nat.leb_le. lia.
Qed.

Lemma by_code_trans (a b c : option nat * nat) :
  Pandas.by_code a b = true -> Pandas.by_code b c = true -> Pandas.by_code a c = true.
Proof.
  unfold Pandas.by_code. destruct (fst a), (fst b), (fst c); auto; try discriminate.
  rewrite !Nat.leb_le. lia.
Qed.

(** C5 - The labels of the monthly table of [update] are the months in
    which a selected row happened, each once, listed in the calendar order
    of [month_order]: they form a subsequence of Jan, Feb, ..., Dec. *)
Theorem months_in_calendar_order (df : DataFrame) (selected : string) :
  exists o,
    update df selected = inr o /\
    exists ms,
      labels (fig_month o) = map Some ms /\
      subseq ms month_order /\
      (forall m, In m ms <->
                 exists r t, In r (dff df selected) /\ date_time r = Some t
                             /\ strftime_b t = m).
Proof.
  run_update df selected.
  set (cells := map (option_map strftime_b) (column date_time (dff df selected))).
  set (code_row := fun row : string * nat => (Pandas.code_of month_order (fst row), snd row)).
  set (le := fun a b => Pandas.by_code (code_row a) (code_row b)).
  unfold Pandas.sort_values, categorical_months. fold code_row.
  rewrite argsort_map. fold le.
  pose proof (argsort_perm le (Pandas.groupby_size cells)) as Hperm.
  assert (Hknown : forall row, In row (Pandas.argsort le (Pandas.groupby_size cells)) ->
                               In (fst row) month_order).
  { intros [m n] Hrow. apply (Permutation_in _ Hperm) in Hrow.
    apply groupby_size_In in Hrow. destruct Hrow as [Hm _].
    apply month_cells in Hm. destruct Hm as (r & t & _ & _ & <-).
    apply month_abbr_In. }
  exists (labels (Pandas.argsort le (Pandas.groupby_size cells))).
  split; [|split].
  - unfold labels, category_labels. rewrite !map_map.
    apply map_ext_in. intros row Hrow. unfold code_row. cbn [fst snd].
    destruct (code_of_In month_order (fst row) (Hknown row Hrow)) as (i & Ei).
    rewrite Ei. now apply code_of_nth_error.
  - apply subseq_by_code.
    + unfold labels. rewrite Forall_map, Forall_forall. exact Hknown.
    + unfold labels. apply StronglySorted_map.
      eapply StronglySorted_weaken;
        [|apply (StronglySorted_distinct fst);
          [ apply (argsort_sorted le);
            [ intros a b; apply by_code_total
            | intros a b c; apply by_code_trans ]
          | eapply Permutation_NoDup;
            [ symmetry; apply Permutation_map, Hperm
            | apply groupby_size_labels_NoDup ] ]].
      intros a b _ _ [Hle Hne] i j Ei Ej.
      unfold le, Pandas.by_code, code_row in Hle. cbn [fst snd] in Hle.
      rewrite Ei, Ej in Hle. apply Nat.leb_le in Hle.
      assert (i <> j) by (intros ->; apply Hne; eapply code_of_inj; eassumption).
      lia.
  - intros m. rewrite <- month_cells. fold cells. unfold labels.
    rewrite in_map_iff. split.
    + intros ([m' n] & E & Hrow). simpl in E. subst m'.
      apply (Permutation_in _ Hperm) in Hrow.
      now apply groupby_size_In in Hrow.
    + intros Hm. exists (m, count_where (holds m) cells). split; [reflexivity|].
      apply (Permutation_in _ (Permutation_sym Hperm)).
      apply groupby_size_In. auto.
Qed.

(** ** The most frequent crime *)





(** ** A city that is not in the dropdown *)

Lemma cities_In (df : DataFrame) (r : Row) : In r df -> In (city r) (cities df).
Proof.
  intros Hr. unfold cities. right.
  apply (Permutation_in _ (Permutation_sym (argsort_perm String.leb _))).
  apply unique_In. unfold column. now apply in_map.
Qed.

Lemma filter_none {A : Type} (p : A -> bool) (l : list A) :
  (forall a, In a l -> p a = false) -> filter p l = [].
Proof.
  induction l as [|a l IH]; simpl; intros Hn; [reflexivity|].
  rewrite (Hn a (or_introl eq_refl)). apply IH. intros b Hb. apply Hn. now right.
Qed.

Lemma dff_unknown (df : DataFrame) (selected : string) :
  ~ In selected (cities df) -> dff df selected = [].
Proof.
  intros Hout. unfold dff.
  destruct (String.eqb_spec selected "All California") as [->|_].
  - exfalso. apply Hout. now left.
  - apply filter_none. intros r Hr. apply String.eqb_neq.
    intros E. apply Hout. rewrite <- E. now apply cities_In.
Qed.

(** C2, as the code has it - On a table with rows, for a city that is not
    among [cities], [update] raises nothing: no row is selected and it
    returns the outputs of an empty selection, every table and the map
    empty, the total 0 and the card N/A. *)
Theorem unknown_city_selects_nothing (df : DataFrame) (selected : string) :
  df <> [] -> ~ In selected (cities df) -> update df selected = inr no_rows.
Proof.
  intros _ Hout. unfold update. rewrite (dff_unknown df selected Hout). reflexivity.
Qed.

Lemma unknown_city_selects_nothing_witness :
  update sample "Nowhere" = inr no_rows.
Proof.
  apply (unknown_city_selects_nothing sample "Nowhere").
  - unfold sample. discriminate.
  - vm_compute. intros H.
    repeat (destruct H as [H|H]; [discriminate H|]). exact H.
Defined.

(** C2, counterexample - "Nowhere" is no city of the sample table, and
    [update] returns outputs for it instead of raising. *)
Lemma unknown_city_is_not_refused :
  (In "Nowhere" (cities sample) -> False) /\
  exists o, update sample "Nowhere" = inr o.
Proof.
  split.
  - vm_compute. intros H.
    repeat (destruct H as [H|H]; [discriminate H|]). exact H.
  - exists no_rows. reflexivity.
Qed.

(** ** The callback on the two tables *)

Example five_rows_X :
  exists o, update five_rows "X" = inr o /\
            total o = "3" /\ freq o = Span "Theft (2 crimes)" /\
            fig_case o = [("No", 2); ("Yes", 1)] /\
            fig_month o = [(Some "Apr", 1); (Some "May", 1); (Some "Jun", 1)].
Proof. eexists. split; [reflexivity|]. repeat split. Qed.

Example five_rows_Y :
  exists o, update five_rows "Y" = inr o /\
            total o = "2" /\ freq o = Span "N/A".
Proof. eexists. split; [reflexivity|]. repeat split. Qed.

Example sample_ties_first_seen :
  exists o, update sample "Fresno" = inr o /\
            fig_case o = [("Yes", 2); ("No", 2)] /\
            fig_weap o = [("Bat", 1); ("Firearm", 1); ("Knife", 2)] /\
            fig_hour o = [(0, 1); (7, 1); (22, 2)].
Proof. eexists. split; [reflexivity|]. repeat split. Qed.

Example thousands :
  format_thousands 0 = "0" /\ format_thousands 999 = "999" /\
  format_thousands 1000 = "1,000" /\
  format_thousands (1234 * 1000 + 567) = "1,234,567".
Proof. repeat split; vm_compute; reflexivity. Qed.

Example sample_top_crime_tie :
  exists o, update sample "All California" = inr o /\
            total o = "6" /\ freq o = Span "Theft (2 crimes)" /\
            fig_race o = [("White", 2); ("Black", 1); ("Hispanic", 1); ("Asian", 1)].
Proof. eexists. split; [reflexivity|]. repeat split. Qed.

(** ** The dropdown *)

Lemma string_leb_ltb (a b : string) :
  String.leb a b = true -> a <> b -> String.ltb a b = true.
Proof.
  unfold String.leb, String.ltb. intros Hle Hne.
  destruct (String.compare a b) eqn:E; try reflexivity; try discriminate.
  apply String.compare_eq_iff in E. contradiction.
Qed.

Lemma city_names_In (df : DataFrame) (c : string) :
  In c (Pandas.argsort String.leb (Pandas.unique (column city df)))
  <-> exists r, In r df /\ city r = c.
Proof.
  assert (Hp := argsort_perm String.leb (Pandas.unique (column city df))).
  split.
  - intros Hc. apply (Permutation_in _ Hp) in Hc. rewrite unique_In in Hc.
    unfold column in Hc. apply in_map_iff in Hc. destruct Hc as (r & E & Hr). eauto.
  - intros (r & Hr & <-). apply (Permutation_in _ (Permutation_sym Hp)).
    apply unique_In. unfold column. now apply in_map.
Qed.

Lemma city_names_NoDup (df : DataFrame) :
  NoDup (Pandas.argsort String.leb (Pandas.unique (column city df))).
Proof.
  eapply Permutation_NoDup; [symmetry; apply argsort_perm | apply unique_NoDup].
Qed.

(** X3 - [cities] is the entry "All California" followed by the city names
    of the table, each once, in strictly ascending order. *)
Theorem cities_sorted_distinct (df : DataFrame) :
  exists names,
    cities df = "All California" :: names /\
    StronglySorted (fun a b => String.ltb a b = true) names /\
    (forall c, In c names <-> exists r, In r df /\ city r = c).
Proof.
  exists (Pandas.argsort String.leb (Pandas.unique (column city df))).
  split; [reflexivity|]. split; [|apply city_names_In].
  eapply StronglySorted_weaken;
    [|apply (StronglySorted_distinct (fun x : string => x));
      [ apply (argsort_sorted String.leb);
        [apply String.leb_total | apply string_leb_trans]
      | rewrite map_id; apply city_names_NoDup ]].
  intros a b _ _ [Hle Hne]. now apply string_leb_ltb.
Qed.

(** X4 - The dropdown lists an option twice exactly when a row of the table
    has the city "All California": the entry is put in front of the names
    without looking at them. *)
Theorem cities_NoDup_iff (df : DataFrame) :
  NoDup (cities df) <-> ~ In "All California" (column city df).
Proof.
  unfold cities. split.
  - intros Hnd Hin. inversion Hnd as [|? ? Hout _]; subst. apply Hout.
    apply city_names_In. unfold column in Hin. apply in_map_iff in Hin.
    destruct Hin as (r & E & Hr). eauto.
  - intros Hout. constructor; [|apply city_names_NoDup].
    intros Hin. apply Hout. apply city_names_In in Hin.
    destruct Hin as (r & Hr & E). unfold column. rewrite <- E. now apply in_map.
Qed.

(** X5 - On a table with rows, every option of the dropdown selects at
    least one row. *)
Theorem every_option_selects_rows (df : DataFrame) (selected : string) :
  In selected (cities df) -> df <> [] -> exists r, In r (dff df selected).
Proof.
  intros Hin Hdf. unfold dff.
  destruct (String.eqb_spec selected "All California") as [->|Hne].
  - destruct df as [|r df]; [contradiction|]. exists r. now left.
  - destruct Hin as [E|Hin]; [congruence|].
    apply city_names_In in Hin. destruct Hin as (r & Hr & E).
    exists r. apply filter_In. split; [exact Hr|]. now apply String.eqb_eq.
Qed.

Lemma every_option_selects_rows_witness :
  exists r, In r (dff sample "Oakland").
Proof.
  apply (every_option_selects_rows sample "Oakland").
  - vm_compute. right. right. left. reflexivity.
  - unfold sample. discriminate.
Defined.

(** X6 - When no row has the city "All California", the selections of the
    city options split the table: their sizes add up to the size of the
    table. *)
Theorem city_selections_partition (df : DataFrame) :
  ~ In "All California" (column city df) ->
  list_sum (map (fun c => List.length (dff df c)) (tl (cities df))) = List.length df.
Proof.
  intros Hout. unfold cities. cbn [tl].
  set (names := Pandas.argsort String.leb (Pandas.unique (column city df))).
  assert (Hsame : map (fun c => List.length (dff df c)) names
                  = map (fun c => count_where (label_eqb c) (column city df)) names).
  { apply map_ext_in. intros c Hc. apply city_names_In in Hc.
    destruct Hc as (r & Hr & E).
    rewrite dff_city.
    - unfold column. rewrite count_where_map. unfold count_where. f_equal.
      apply filter_ext. intros r'. apply String.eqb_sym.
    - intros ->. apply Hout. unfold column. rewrite <- E. now apply in_map. }
  rewrite Hsame.
  rewrite (filter_eqb_partition names (column city df)).
  - unfold column. apply length_map.
  - apply city_names_NoDup.
  - intros c Hc. apply city_names_In. unfold column in Hc.
    apply in_map_iff in Hc. destruct Hc as (r & E & Hr). eauto.
Qed.

Lemma city_selections_partition_witness :
  list_sum (map (fun c => List.length (dff sample c)) (tl (cities sample)))
  = List.length sample.
Proof.
  apply (city_selections_partition sample).
  unfold sample. simpl. intros H.
  repeat (destruct H as [H|H]; [discriminate H|]). exact H.
Defined.

(** ** Empty selections and the guard of the card *)

(** X1 - On a table with rows, the table of crime types that [idxmax]
    is to read is empty exactly when the guard of the card fails; so
    [idxmax] never meets an empty table, the card is computed and [update]
    raises nothing. *)
Theorem card_guard_protects_idxmax (df : DataFrame) (selected : string) :
  df <> [] ->
  (Pandas.value_counts
     (map Some (Pandas.astype_str
                  (Pandas.dropna (column crime_type (dff df selected))))) = []
   <-> Pandas.any (map Pandas.notna (column crime_type (dff df selected))) = false) /\
  (exists span, freq_crime (dff df selected) = inr span) /\
  (exists o, update df selected = inr o).
Proof.
  intros _. split; [|split].
  - set (ct := column crime_type (dff df selected)). split.
    + intros Hempty. apply any_notna_false. intros [k|] Hc; [|reflexivity].
      assert (Hin := proj2 (crime_table_In ct k _) (conj Hc eq_refl)).
      rewrite Hempty in Hin. destruct Hin.
    + intros Hany.
      destruct (Pandas.value_counts _) as [|[k n] rest] eqn:E; [reflexivity|].
      assert (Hin : In (k, n) ((k, n) :: rest)) by now left.
      rewrite <- E in Hin. apply crime_table_In in Hin. destruct Hin as [Hk _].
      pose proof (proj1 (any_notna_false ct) Hany _ Hk) as Hnone. discriminate Hnone.
  - destruct (update_frames df selected) as (span & Hspan & _). eauto.
  - destruct (update_frames df selected) as (span & _ & Hu). eauto.
Qed.

Lemma card_guard_protects_idxmax_witness :
  (Pandas.value_counts
     (map Some (Pandas.astype_str
                  (Pandas.dropna (column crime_type (dff sample "Oakland"))))) = []
   <-> Pandas.any (map Pandas.notna (column crime_type (dff sample "Oakland"))) = false) /\
  (exists span, freq_crime (dff sample "Oakland") = inr span) /\
  (exists o, update sample "Oakland" = inr o).
Proof.
  apply (card_guard_protects_idxmax sample "Oakland"). unfold sample. discriminate.
Defined.

(** X2 - On a table with rows, [update] returns the empty outputs (all
    tables and the map empty, total 0, card N/A) exactly when no row is
    selected. *)
Theorem no_rows_iff_empty_selection (df : DataFrame) (selected : string) :
  df <> [] ->
  (update df selected = inr no_rows <-> dff df selected = []).
Proof.
  intros _. split.
  - intros Hu. destruct (update_frames df selected) as (span & _ & Hu').
    rewrite Hu' in Hu. injection Hu as _ _ _ _ _ _ _ Htotal _.
    change "0"%string with (format_thousands 0) in Htotal.
    apply format_thousands_inj in Htotal.
    now apply length_zero_iff_nil.
  - intros Hd. unfold update. rewrite Hd. reflexivity.
Qed.

Lemma no_rows_iff_empty_selection_witness :
  update sample "Nowhere" = inr no_rows <-> dff sample "Nowhere" = [].
Proof.
  apply (no_rows_iff_empty_selection sample "Nowhere"). unfold sample. discriminate.
Defined.

(** ** A city against the whole table *)

Lemma subseq_filter {A : Type} (p : A -> bool) (l : list A) : subseq (filter p l) l.
Proof.
  induction l as [|a l IH]; simpl; [constructor|].
  destruct (p a); constructor; exact IH.
Qed.

Lemma subseq_same {A : Type} (l : list A) : subseq l l.
Proof. induction l; constructor; assumption. Qed.

Lemma subseq_map {A B : Type} (f : A -> B) (l m : list A) :
  subseq l m -> subseq (map f l) (map f m).
Proof. induction 1; simpl; constructor; assumption. Qed.

Lemma subseq_In {A : Type} (l m : list A) (x : A) : subseq l m -> In x l -> In x m.
Proof.
  induction 1 as [|y l m Hs IH|y l m Hs IH]; simpl; [auto | auto |].
  intros [->|Hx]; auto.
Qed.

Lemma subseq_count {A : Type} (p : A -> bool) (l m : list A) :
  subseq l m -> count_where p l <= count_where p m.
Proof.
  unfold count_where.
  induction 1 as [|y l m Hs IH|y l m Hs IH]; simpl; [lia | |];
    destruct (p y); simpl; lia.
Qed.

Lemma subseq_length_le {A : Type} (l m : list A) :
  subseq l m -> List.length l <= List.length m.
Proof. induction 1; simpl; lia. Qed.

Lemma dff_subseq (df : DataFrame) (selected : string) : subseq (dff df selected) df.
Proof.
  unfold dff. destruct (String.eqb selected "All California");
    [apply subseq_same | apply subseq_filter].
Qed.

Lemma filter_of_map {A B : Type} (f : A -> B) (p : B -> bool) (l : list A) :
  filter p (map f l) = map f (filter (fun a => p (f a)) l).
Proof.
  induction l as [|a l IH]; simpl; [reflexivity|].
  destruct (p (f a)); simpl; now rewrite IH.
Qed.

(** X7 - For a city option, the markers of the map are exactly the
    markers of the whole table that are in that city, all of them and in
    the same order; so every marker is in that city, none of the city is
    missing, and the markers of the other cities are left out. *)
Theorem city_map_shows_only_that_city (df : DataFrame) (selected : string) :
  selected <> "All California" ->
  exists o,
    update df selected = inr o /\
    fig_map o = filter (fun p => String.eqb (color p) selected) (scatter_map df) /\
    Forall (fun p => color p = selected) (fig_map o) /\
    subseq (fig_map o) (scatter_map df).
Proof.
  intros Hne. run_update df selected. split; [|split].
  - unfold scatter_map. rewrite filter_of_map. cbn [color].
    now rewrite (dff_city df selected Hne).
  - unfold scatter_map. rewrite Forall_map, Forall_forall. cbn [color].
    intros r Hr. rewrite (dff_city df selected Hne) in Hr.
    apply filter_In in Hr. now apply String.eqb_eq.
  - unfold scatter_map. apply subseq_map, dff_subseq.
Qed.

Lemma city_map_shows_only_that_city_witness :
  exists o,
    update sample "Fresno" = inr o /\
    fig_map o = filter (fun p => String.eqb (color p) "Fresno") (scatter_map sample) /\
    Forall (fun p => color p = "Fresno"%string) (fig_map o) /\
    subseq (fig_map o) (scatter_map sample).
Proof.
  apply (city_map_shows_only_that_city sample "Fresno"). discriminate.
Defined.

Lemma value_counts_below {K : Type} {L : Label K} {LL : LabelLaws L}
    (s s' : list (option K)) (k : K) (n : nat) :
  subseq s s' ->
  In (k, n) (Pandas.value_counts s) ->
  exists m, In (k, m) (Pandas.value_counts s') /\ n <= m.
Proof.
  intros Hs Hin. apply value_counts_In in Hin. destruct Hin as [Hk ->].
  exists (count_where (holds k) s'). split.
  - apply value_counts_In. split; [|reflexivity]. eapply subseq_In; eassumption.
  - now apply subseq_count.
Qed.

(** X8 - Whatever is selected, each entry of the three category tables
    also has an entry in the table for "All California", with a count that
    is at least as large; and no selection has more rows than the table. *)
Theorem selection_below_whole_table (df : DataFrame) (selected : string) :
  exists o whole,
    update df selected = inr o /\
    update df "All California" = inr whole /\
    List.length (dff df selected) <= List.length df /\
    (forall k n, In (k, n) (fig_case o) ->
                 exists m, In (k, m) (fig_case whole) /\ n <= m) /\
    (forall k n, In (k, n) (fig_race o) ->
                 exists m, In (k, m) (fig_race whole) /\ n <= m) /\
    (forall k n, In (k, n) (fig_gender o) ->
                 exists m, In (k, m) (fig_gender whole) /\ n <= m).
Proof.
  destruct (update_frames df selected) as (span & _ & Hu).
  destruct (update_frames df "All California") as (span' & _ & Hw).
  rewrite dff_all in Hw.
  eexists. eexists. split; [exact Hu|]. split; [exact Hw|].
  cbn [fig_case fig_race fig_gender].
  pose proof (dff_subseq df selected) as Hsub.
  split; [now apply subseq_length_le|].
  split; [|split]; intros k n; apply value_counts_below;
    unfold column; now apply subseq_map.
Qed.

(** ** The monthly and hourly tables in full *)

(** The monthly table is the month rows of [groupby], rearranged into
    calendar order, each shown under its own label. *)
Lemma fig_month_rows (cells : list (option string)) :
  (forall m, In (Some m) cells -> In m month_order) ->
  exists rows,
    Permutation rows (Pandas.groupby_size cells) /\
    category_labels
      (Pandas.sort_values Pandas.by_code true
         (categorical_months (Pandas.groupby_size cells)))
    = map (fun row => (Some (fst row), snd row)) rows /\
    subseq (labels rows) month_order.
Proof.
  intros Hmonths.
  set (code_row := fun row : string * nat => (Pandas.code_of month_order (fst row), snd row)).
  set (le := fun a b => Pandas.by_code (code_row a) (code_row b)).
  exists (Pandas.argsort le (Pandas.groupby_size cells)).
  pose proof (argsort_perm le (Pandas.groupby_size cells)) as Hperm.
  assert (Hknown : forall row, In row (Pandas.argsort le (Pandas.groupby_size cells)) ->
                               In (fst row) month_order).
  { intros [m n] Hrow. apply (Permutation_in _ Hperm) in Hrow.
    apply groupby_size_In in Hrow. destruct Hrow as [Hm _]. now apply Hmonths. }
  split; [exact Hperm|]. split.
  - unfold Pandas.sort_values, categorical_months. fold code_row.
    rewrite argsort_map. fold le. unfold category_labels. rewrite map_map.
    apply map_ext_in. intros row Hrow. unfold code_row. cbn [fst snd].
    destruct (code_of_In month_order (fst row) (Hknown row Hrow)) as (i & Ei).
    rewrite Ei. f_equal. now apply code_of_nth_error.
  - apply subseq_by_code.
    + unfold labels. rewrite Forall_map, Forall_forall. exact Hknown.
    + unfold labels. apply StronglySorted_map.
      eapply StronglySorted_weaken;
        [|apply (StronglySorted_distinct fst);
          [ apply (argsort_sorted le);
            [ intros a b; apply by_code_total
            | intros a b c; apply by_code_trans ]
          | eapply Permutation_NoDup;
            [ symmetry; apply Permutation_map, Hperm
            | apply groupby_size_labels_NoDup ] ]].
      intros a b _ _ [Hle Hne] i j Ei Ej.
      unfold le, Pandas.by_code, code_row in Hle. cbn [fst snd] in Hle.
      rewrite Ei, Ej in Hle. apply Nat.leb_le in Hle.
      assert (i <> j) by (intros ->; apply Hne; eapply code_of_inj; eassumption).
      lia.
Qed.

Lemma month_cells_known (d : DataFrame) (m : string) :
  In (Some m) (map (option_map strftime_b) (column date_time d)) -> In m month_order.
Proof.
  intros Hm. apply month_cells in Hm. destruct Hm as (r & t & _ & _ & <-).
  apply month_abbr_In.
Qed.

Lemma month_count (d : DataFrame) (m : string) :
  count_where (holds m) (map (option_map strftime_b) (column date_time d))
  = count_where (in_month m) d.
Proof.
  unfold column. rewrite map_map, count_where_map.
  apply count_where_ext. intros r. unfold in_month.
  destruct (date_time r); reflexivity.
Qed.

Lemma notna_option_map {A B : Type} (f : A -> B) (s : list (option A)) :
  count_where Pandas.notna (map (option_map f) s) = count_where Pandas.notna s.
Proof.
  rewrite count_where_map. apply count_where_ext. intros [a|]; reflexivity.
Qed.

Lemma NoDup_map_Some {A : Type} (l : list A) : NoDup l -> NoDup (map Some l).
Proof.
  induction 1 as [|a l Ha Hl IH]; simpl; constructor; [|exact IH].
  rewrite in_map_iff. intros (b & E & Hb). injection E as ->. contradiction.
Qed.

(** X9 - The monthly table of [update] has, for each month in which a
    selected row happened, exactly one entry, with the number of those
    rows, and no other entry: no label occurs twice, and no entry has lost
    its label. *)
Theorem monthly_table_counts (df : DataFrame) (selected : string) :
  exists o,
    update df selected = inr o /\
    NoDup (labels (fig_month o)) /\
    (forall m n,
       In (Some m, n) (fig_month o) <->
       (exists r t, In r (dff df selected) /\ date_time r = Some t /\ strftime_b t = m) /\
       n = count_where (in_month m) (dff df selected)) /\
    (forall n, ~ In (None, n) (fig_month o)).
Proof.
  run_update df selected.
  destruct (fig_month_rows _ (month_cells_known (dff df selected)))
    as (rows & Hperm & -> & _).
  split; [|split].
  - unfold labels. rewrite map_map. cbn [fst].
    rewrite <- (map_map fst Some). apply NoDup_map_Some.
    eapply Permutation_NoDup;
      [symmetry; apply Permutation_map, Hperm | apply groupby_size_labels_NoDup].
  - intros m n. rewrite <- month_cells, <- month_count, <- groupby_size_In.
    rewrite in_map_iff. split.
    + intros ([m' n'] & E & Hrow). injection E as -> ->.
      now apply (Permutation_in _ Hperm).
    + intros Hrow. exists (m, n). split; [reflexivity|].
      now apply (Permutation_in _ (Permutation_sym Hperm)).
  - intros n Hin. apply in_map_iff in Hin. destruct Hin as (row & E & _).
    discriminate E.
Qed.

(** X10 - The counts of the hourly table and the counts of the monthly
    table both add up to the number of selected rows that have a
    timestamp. *)
Theorem hourly_and_monthly_totals (df : DataFrame) (selected : string) :
  exists o,
    update df selected = inr o /\
    sum_counts (fig_hour o)
    = count_where Pandas.notna (column date_time (dff df selected)) /\
    sum_counts (fig_month o)
    = count_where Pandas.notna (column date_time (dff df selected)).
Proof.
  run_update df selected.
  destruct (fig_month_rows _ (month_cells_known (dff df selected)))
    as (rows & Hperm & -> & _).
  split.
  - rewrite groupby_size_sum. apply notna_option_map.
  - transitivity (sum_counts rows).
    + unfold sum_counts. now rewrite map_map.
    + rewrite (sum_counts_perm _ _ Hperm), groupby_size_sum. apply notna_option_map.
Qed.

(** X11 - The monthly table of [update] never has more than twelve
    entries. *)
Theorem monthly_table_at_most_twelve (df : DataFrame) (selected : string) :
  exists o, update df selected = inr o /\ List.length (fig_month o) <= 12.
Proof.
  run_update df selected.
  destruct (fig_month_rows _ (month_cells_known (dff df selected)))
    as (rows & _ & -> & Hsub).
  apply subseq_length_le in Hsub. unfold labels in Hsub.
  rewrite length_map in *. exact Hsub.
Qed.

Lemma increasing_below (n : nat) (l : list nat) :
  StronglySorted lt l -> forall lo,
  Forall (fun x => lo <= x < n) l -> List.length l <= n - lo.
Proof.
  induction 1 as [|a l Hs IH Ha]; intros lo Hall; simpl; [lia|].
  inversion Hall as [|? ? Hbound Hrest]; subst.
  assert (Hnext : Forall (fun x => S a <= x < n) l).
  { rewrite Forall_forall in *. intros x Hx. specialize (Ha x Hx).
    specialize (Hrest x Hx). lia. }
  specialize (IH (S a) Hnext). lia.
Qed.

(** X12 - On a table with well-formed timestamps the hourly table of
    [update] never has more than twenty-four entries. *)
Theorem hourly_table_at_most_24 (df : DataFrame) (selected : string) :
  dates_well_formed df ->
  exists o, update df selected = inr o /\ List.length (fig_hour o) <= 24.
Proof.
  intros Hwf. run_update df selected.
  set (tbl := Pandas.groupby_size
                (map (option_map hour) (column date_time (dff df selected)))).
  replace (List.length tbl) with (List.length (labels tbl))
    by (unfold labels; apply length_map).
  replace 24 with (24 - 0) by lia.
  apply increasing_below.
  - unfold labels. apply StronglySorted_map.
    eapply StronglySorted_weaken; [|apply groupby_size_order].
    intros a b _ _ [Hle Hne]. simpl in Hle. apply Nat.leb_le in Hle. lia.
  - unfold labels. rewrite Forall_map, Forall_forall. intros [h n] Hin.
    apply groupby_size_In in Hin. destruct Hin as [Hh _].
    apply hour_cells in Hh. destruct Hh as (r & t & Hr & Et & <-).
    cbn [fst]. split; [lia|].
    apply (Hwf r t); [eapply dff_In; eassumption | exact Et].
Qed.

Lemma hourly_table_at_most_24_witness :
  exists o, update sample "All California" = inr o /\ List.length (fig_hour o) <= 24.
Proof.
  apply (hourly_table_at_most_24 sample "All California").
  intros r t Hin Et. unfold sample in Hin. simpl in Hin.
  repeat (destruct Hin as [<-|Hin];
          [simpl in Et; inversion Et; subst t; unfold well_formed; simpl; lia|]).
  destruct Hin.
Defined.

(** ** No table has an idle or a repeated entry *)

Lemma proper_table_perm {K : Type} (t t' : list (K * nat)) :
  Permutation t t' -> proper_table t -> proper_table t'.
Proof.
  intros Hp [Hnd Hpos]. split.
  - unfold labels in *. eapply Permutation_NoDup; [apply Permutation_map, Hp | exact Hnd].
  - eapply Permutation_Forall; eassumption.
Qed.

Lemma tally_proper {K : Type} {L : Label K} {LL : LabelLaws L} (s : list (option K)) :
  proper_table (Pandas.tally (Pandas.dropna s)).
Proof.
  split.
  - rewrite tally_labels. apply unique_NoDup.
  - rewrite Forall_forall. intros [k n] Hin. apply tally_In in Hin.
    destruct Hin as [Hk ->]. cbn [snd].
    apply (count_where_pos _ _ k Hk). apply label_eqb_refl.
Qed.

Lemma value_counts_proper {K : Type} {L : Label K} {LL : LabelLaws L}
    (s : list (option K)) :
  proper_table (Pandas.value_counts s).
Proof.
  eapply proper_table_perm; [symmetry; apply value_counts_perm | apply tally_proper].
Qed.

Lemma groupby_size_proper {K : Type} {L : Label K} {LL : LabelLaws L}
    (s : list (option K)) :
  proper_table (Pandas.groupby_size s).
Proof.
  eapply proper_table_perm; [symmetry; apply groupby_size_perm | apply tally_proper].
Qed.

(** X16 - In each of the six tables of [update] (case status, race,
    gender, hours, weapons, months) no label has two entries and every
    entry has a count of at least one. *)
Theorem tables_are_proper (df : DataFrame) (selected : string) :
  exists o,
    update df selected = inr o /\
    proper_table (fig_case o) /\ proper_table (fig_race o) /\
    proper_table (fig_gender o) /\ proper_table (fig_hour o) /\
    proper_table (fig_weap o) /\ proper_table (fig_month o).
Proof.
  run_update df selected.
  destruct (fig_month_rows _ (month_cells_known (dff df selected)))
    as (rows & Hperm & -> & _).
  repeat (split; [first [apply value_counts_proper | apply groupby_size_proper]|]).
  split.
  - eapply proper_table_perm;
      [symmetry; apply sort_values_perm | apply groupby_size_proper].
  - assert (Hrows : proper_table rows).
    { eapply proper_table_perm; [symmetry; exact Hperm | apply groupby_size_proper]. }
    destruct Hrows as [Hnd Hpos]. split.
    + unfold labels in *. rewrite map_map. cbn [fst].
      rewrite <- (map_map fst Some).
      now apply NoDup_map_Some.
    + rewrite Forall_map. exact Hpos.
Qed.

(** ** The total as a string *)

Lemma str_nonempty (n : nat) : str n <> ""%string.
Proof.
  unfold str. intros E.
  pose proof (NilEmpty.usu (Nat.to_uint n)) as Hu. rewrite E in Hu.
  simpl in Hu. injection Hu as Hu.
  apply (f_equal Nat.of_uint) in Hu.
  rewrite DecimalNat.Unsigned.of_to in Hu. simpl in Hu. subst n. discriminate E.
Qed.

Lemma group3_commas (n : nat) : forall l,
  List.length l <= n ->
  Forall (fun c => c <> ","%char) l ->
  forall i, i < List.length (group3 l) ->
            (nth i (group3 l) " "%char = ","%char <-> i mod 4 = 3).
Proof.
  induction n as [|n IH]; intros l Hlen Hl i Hi.
  - destruct l; [simpl in Hi; lia | simpl in Hlen; lia].
  - destruct l as [|a [|b [|c [|d t]]]];
      repeat match goal with H : Forall _ (_ :: _) |- _ => inversion H; clear H; subst end.
    + simpl in Hi. lia.
    + destruct i as [|i]; [|simpl in Hi; lia].
      simpl. split; [contradiction | discriminate].
    + destruct i as [|[|i]]; [| |simpl in Hi; lia];
        simpl; (split; [contradiction | discriminate]).
    + destruct i as [|[|[|i]]]; [| | |simpl in Hi; lia];
        simpl; (split; [contradiction | discriminate]).
    + change (group3 (a :: b :: c :: d :: t))
        with (a :: b :: c :: ","%char :: group3 (d :: t)) in *.
      destruct i as [|[|[|[|j]]]].
      * simpl. split; [contradiction | discriminate].
      * simpl. split; [contradiction | discriminate].
      * simpl. split; [contradiction | discriminate].
      * simpl. split; reflexivity.
      * change (nth (S (S (S (S j)))) (a :: b :: c :: ","%char :: group3 (d :: t)) " "%char)
          with (nth j (group3 (d :: t)) " "%char).
        replace (S (S (S (S j)))) with (j + 1 * 4) by lia.
        rewrite Nat.Div0.mod_add.
        apply IH; [simpl in *; lia | now constructor | cbn [List.length] in Hi; lia].
Qed.

Lemma group3_ends_in_digit (n : nat) : forall l,
  List.length l <= n -> l <> [] ->
  Forall (fun c => c <> ","%char) l ->
  exists init x, group3 l = init ++ [x] /\ x <> ","%char.
Proof.
  induction n as [|n IH]; intros l Hlen Hne Hl.
  - destruct l; [contradiction | simpl in Hlen; lia].
  - destruct l as [|a [|b [|c [|d t]]]];
      repeat match goal with H : Forall _ (_ :: _) |- _ => inversion H; clear H; subst end.
    + contradiction.
    + exists [], a. auto.
    + exists [a], b. auto.
    + exists [a; b], c. auto.
    + destruct (IH (d :: t)) as (init & x & E & Hx);
        [simpl in *; lia | discriminate | now constructor |].
      exists (a :: b :: c :: ","%char :: init), x.
      change (group3 (a :: b :: c :: d :: t))
        with (a :: b :: c :: ","%char :: group3 (d :: t)).
      rewrite E. auto.
Qed.

Lemma str_digits_rev (n : nat) :
  Forall (fun c => c <> ","%char) (rev (list_ascii_of_string (str n))).
Proof. apply Forall_rev, uint_digits_no_comma. Qed.

(** X13 - The total shown by [update] is the decimal number of selected
    rows with commas put in: taking the commas out gives the plain decimal;
    counting characters from the right, starting at 0, the character at
    position [i] is a comma exactly when [i mod 4 = 3]; and the first
    character is not a comma. *)
Theorem total_has_thousands_commas (df : DataFrame) (selected : string) :
  exists o,
    update df selected = inr o /\
    without_commas (total o) = str (List.length (dff df selected)) /\
    (forall i, i < List.length (from_the_right (total o)) ->
               (nth i (from_the_right (total o)) " "%char = ","%char
                <-> i mod 4 = 3)) /\
    (exists c rest, total o = String c rest /\ c <> ","%char).
Proof.
  run_update df selected.
  set (n := List.length (dff df selected)).
  pose proof (str_digits_rev n) as Hdigits.
  unfold format_thousands, without_commas, from_the_right.
  rewrite !list_ascii_of_string_of_list_ascii, rev_involutive.
  split; [|split].
  - rewrite filter_rev, (group3_strip _ _ (le_n _) Hdigits), rev_involutive.
    apply string_of_list_ascii_of_string.
  - apply (group3_commas _ _ (le_n _) Hdigits).
  - destruct (group3_ends_in_digit _ (rev (list_ascii_of_string (str n))) (le_n _))
      as (init & x & E & Hx).
    + intros Hnil. apply (f_equal (@rev ascii)) in Hnil.
      rewrite rev_involutive in Hnil. simpl in Hnil.
      apply (f_equal string_of_list_ascii) in Hnil.
      rewrite string_of_list_ascii_of_string in Hnil.
      now apply str_nonempty in Hnil.
    + exact Hdigits.
    + rewrite E, rev_app_distr. simpl. eauto.
Qed.

Lemma format_thousands_small (n : nat) : n < 1000 -> format_thousands n = str n.
Proof.
  assert (Hall : forallb (fun k => String.eqb (format_thousands k) (str k))
                         (seq 0 1000) = true)
    by (vm_compute; reflexivity).
  intros Hn. rewrite forallb_forall in Hall.
  apply String.eqb_eq, Hall, in_seq. lia.
Qed.

(** X14 - When fewer than a thousand rows are selected, the total shown by
    [update] is the plain decimal number of those rows. *)
Theorem small_total_is_plain (df : DataFrame) (selected : string) :
  List.length (dff df selected) < 1000 ->
  exists o,
    update df selected = inr o /\
    total o = str (List.length (dff df selected)).
Proof.
  intros Hsmall. run_update df selected. now apply format_thousands_small.
Qed.

Lemma small_total_is_plain_witness :
  exists o,
    update sample "Fresno" = inr o /\
    total o = str (List.length (dff sample "Fresno")).
Proof.
  apply (small_total_is_plain sample "Fresno"). vm_compute. lia.
Defined.

(** ** The count on the card *)

Lemma count_where_le_impl {A : Type} (p q : A -> bool) (l : list A) :
  (forall a, p a = true -> q a = true) -> count_where p l <= count_where q l.
Proof.
  intros Himp. unfold count_where.
  induction l as [|a l IH]; simpl; [lia|].
  destruct (p a) eqn:Ep; [rewrite (Himp a Ep); simpl; lia|].
  destruct (q a); simpl; lia.
Qed.

(** X15 - The card of [update] is either N/A or a crime type followed by a
    number of crimes that is at least one and at most the number of
    selected rows with a crime type; it never shows zero or "nan". *)
Theorem card_count_in_range (df : DataFrame) (selected : string) :
  exists o,
    update df selected = inr o /\
    (freq o = Span "N/A" \/
     exists k n,
       freq o = Span (k ++ " (" ++ str n ++ " crimes)")%string /\
       1 <= n /\
       n <= count_where Pandas.notna (column crime_type (dff df selected)) /\
       count_where Pandas.notna (column crime_type (dff df selected))
       <= List.length (dff df selected)).
Proof.
  destruct (update_frames df selected) as (span & Hspan & Hu).
  eexists. split; [exact Hu|]. cbn [freq].
  destruct (freq_crime_cases (dff df selected)) as [[_ E]|(k & n & rest & Hvc & E)];
    rewrite E in Hspan; injection Hspan as Hs; subst span; [now left|].
  right. exists k, n. split; [reflexivity|].
  set (ct := column crime_type (dff df selected)) in *.
  assert (Htop : In (Some k) ct /\ n = count_where (holds k) ct).
  { apply crime_table_In. rewrite Hvc. now left. }
  destruct Htop as [Hk ->]. split; [|split].
  - apply (count_where_pos _ _ (Some k) Hk). simpl. apply String.eqb_refl.
  - apply count_where_le_impl. intros [x|] Hx; [reflexivity | discriminate].
  - etransitivity; [apply count_where_le|]. unfold ct, column. now rewrite length_map.
Qed.
